(** * vulkan-hello: a shallow embedding of examples/vulkan-hello/src/main.cc

    The program queries the loader version, creates a Vulkan instance,
    enumerates the physical devices with the two-call convention, prints one
    line per device and destroys the instance.  The Vulkan driver is an
    input of the model (record [Driver]); the program's observable effects
    (standard output, standard error, the calls it makes and the static
    formatting buffer of [ApiVersionToStr]) are threaded through a small
    state monad. *)

From Stdlib Require Import ZArith Lia List Bool Ascii String Permutation.
Import ListNotations.
Open Scope string_scope.
Open Scope Z_scope.

(** ** C integers *)

(** [(uint32_t) z] *)
Definition to_u32 (z : Z) : Z := z mod 2 ^ 32.

(** [(int32_t) z]: two's-complement reading of the low 32 bits *)
Definition to_s32 (z : Z) : Z :=
  let u := to_u32 z in if u <? 2 ^ 31 then u else u - 2 ^ 32.

(** ** Vulkan header constants and macros *)

Definition VK_SUCCESS : Z := 0.
Definition VK_NULL_HANDLE : Z := 0.

(** [VK_MAKE_VERSION(major, minor, patch)] *)
Definition VK_MAKE_VERSION (major minor patch : Z) : Z :=
  to_u32 (Z.lor (Z.lor (Z.shiftl major 22) (Z.shiftl minor 12)) patch).

Definition VK_API_VERSION_1_0 : Z := VK_MAKE_VERSION 1 0 0.
Definition VK_API_VERSION_1_1 : Z := VK_MAKE_VERSION 1 1 0.

(** [VK_VERSION_MAJOR(v) ((uint32_t)(v) >> 22)] *)
Definition VK_VERSION_MAJOR (v : Z) : Z := Z.shiftr (to_u32 v) 22.
(** [VK_VERSION_MINOR(v) (((uint32_t)(v) >> 12) & 0x3FFU)] *)
Definition VK_VERSION_MINOR (v : Z) : Z := Z.land (Z.shiftr (to_u32 v) 12) 1023.
(** [VK_VERSION_PATCH(v) ((uint32_t)(v) & 0xFFFU)] *)
Definition VK_VERSION_PATCH (v : Z) : Z := Z.land (to_u32 v) 4095.

(** ** The [printf] family *)

(** Digit character of a value below 16, lower case as [%x] prints it. *)
Definition digit_char (d : Z) : ascii :=
  if d <? 10 then ascii_of_nat (48 + Z.to_nat d)
  else ascii_of_nat (87 + Z.to_nat d).

(** Unsigned conversion of [n] in base [base], most significant digit
    first; [fuel] bounds the number of digits (32 suffices for a 32-bit
    value in any base from 2 up). *)
Fixpoint utoa_aux (fuel : nat) (base n : Z) (acc : string) : string :=
  match fuel with
  | O => acc
  | S f =>
      let acc' := String (digit_char (n mod base)) acc in
      if n <? base then acc' else utoa_aux f base (n / base) acc'
  end.

Definition utoa (base n : Z) : string := utoa_aux 32 base n EmptyString.

(** Signed decimal conversion, as [%d] prints an [int]. *)
Definition itoa (n : Z) : string :=
  if n <? 0 then String "-"%char (utoa 10 (- n)) else utoa 10 n.

(** Left padding with ['0'] up to a minimum field width ([%04x]). *)
Definition pad0 (width : nat) (s : string) : string :=
  append (String.concat "" (repeat "0" (width - String.length s)%nat)) s.

(** A [char*] argument: a pointer into the static buffer of
    [ApiVersionToStr] or to some other character array. *)
Inductive cptr : Type :=
| PStatic : cptr
| PStr : string -> cptr.

(** [*p] as a C string, given the current contents of the static buffer. *)
Definition deref (buf : string) (p : cptr) : string :=
  match p with
  | PStatic => buf
  | PStr s => s
  end.

(** A variadic argument of [printf]. *)
Inductive arg : Type :=
| AInt : Z -> arg
| APtr : cptr -> arg.

(** The characters of a C string up to its terminating NUL. *)
Fixpoint cstr (s : string) : string :=
  match s with
  | EmptyString => EmptyString
  | String c r => if Ascii.eqb c Ascii.zero then EmptyString else String c (cstr r)
  end.

(** One conversion: [%u], [%d], [%x] and [%s]. *)
Definition conv (buf : string) (c : ascii) (a : arg) : string :=
  match a with
  | AInt z =>
      if Ascii.eqb c "u"%char then utoa 10 (to_u32 z)
      else if Ascii.eqb c "d"%char then itoa (to_s32 z)
      else if Ascii.eqb c "x"%char then utoa 16 (to_u32 z)
      else EmptyString
  | APtr p => if Ascii.eqb c "s"%char then cstr (deref buf p) else EmptyString
  end.

Definition digit_val (c : ascii) : nat := (nat_of_ascii c - 48)%nat.

(** The formatting engine of [printf]/[snprintf] for the directives the
    program uses: [%c] and [%0wc] with a one-digit width [w].  The
    pointer arguments are read when the text is produced, [buf] being the
    contents of the static buffer at that time. *)
Fixpoint format (buf : string) (f : string) (args : list arg) : string :=
  match f with
  | EmptyString => EmptyString
  | String ch r =>
      if Ascii.eqb ch "%"%char then
        match r with
        | EmptyString => String ch EmptyString
        | String c r2 =>
            if Ascii.eqb c "0"%char then
              match r2 with
              | String w (String c' r3) =>
                  match args with
                  | a :: args' =>
                      append (pad0 (digit_val w) (conv buf c' a)) (format buf r3 args')
                  | [] => EmptyString
                  end
              | _ => EmptyString
              end
            else
              match args with
              | a :: args' => append (conv buf c a) (format buf r2 args')
              | [] => EmptyString
              end
        end
      else String ch (format buf r args)
  end.

(** [snprintf(buf, size, ...)] keeps at most [size - 1] characters. *)
Definition snprintf (size : nat) (buf : string) (f : string) (args : list arg) : string :=
  substring 0 (size - 1) (format buf f args).


(** ** The driver

    What the Vulkan loader and driver answer to each call of the program. *)

(** [VkPhysicalDeviceProperties], the fields the program reads. *)
Record DeviceProps : Type := {
  deviceName : string;      (** [char deviceName[256]], NUL-terminated *)
  apiVersion : Z;
  driverVersion : Z;
  deviceID : Z
}.

Record Driver : Type := {
  (** [vkGetInstanceProcAddr(VK_NULL_HANDLE, "vkEnumerateInstanceVersion")]:
      [None] is a NULL result; [Some f] is an entry point which, called with
      [pApiVersion], leaves [f x] where [*pApiVersion] held [x]. *)
  enumerate_instance_version : option (Z -> Z);
  (** the [VkResult] of [vkCreateInstance] *)
  create_instance_result : Z;
  (** [vkEnumeratePhysicalDevices(instance, &count, nullptr)]: the
      [VkResult] and the count written *)
  enum_count_result : Z * Z;
  (** [vkEnumeratePhysicalDevices(instance, &count, buffer)]: the [VkResult]
      and, with a success status, the handles the driver has; it then writes
      at most [count] of them and sets [count] to the number written *)
  enum_fill_result : Z * list Z;
  (** [vkGetPhysicalDeviceProperties] *)
  device_properties : Z -> DeviceProps
}.

(** ** Program state *)

(** The instance handle: [Uninitialized -> ContextLive -> Terminated]. *)
Inductive ctx_phase : Type := Uninitialized | ContextLive | Terminated.

(** The driver calls the program makes, and the reads of the device buffer. *)
Inductive event : Type :=
| EvGetProcAddr
| EvEnumerateInstanceVersion
| EvCreateInstance (res : Z)
| EvEnumerateCount (res : Z)
| EvAllocDevices (n : Z)
| EvEnumerateFill (res : Z)
| EvReadDevice (i : nat)
| EvGetProperties (h : Z)
| EvDestroyInstance.

Record St : Type := mkSt {
  static_buf : string;      (** [static char buf[64]] of [ApiVersionToStr] *)
  stdout : list string;     (** one entry per [printf]/[puts] call *)
  stderr : list string;     (** one entry per [fprintf(stderr, ...)] call *)
  calls : list event;
  phase : ctx_phase
}.

Definition init_st : St := mkSt EmptyString [] [] [] Uninitialized.

(** ** A state monad with abnormal termination

    A computation ends with [Some] result, or with [None] when the process
    has been aborted ([abort()] in the Vulkan loader): nothing after that
    runs, and the state is the one at the abort. *)

Definition M (A : Type) : Type := St -> option A * St.

Definition ret {A} (a : A) : M A := fun s => (Some a, s).
Definition bind {A B} (m : M A) (k : A -> M B) : M B :=
  fun s => match m s with
           | (Some a, s') => k a s'
           | (None, s') => (None, s')
           end.
Definition abort {A} : M A := fun s => (None, s).

Notation "x <- m ;; k" := (bind m (fun x => k))
  (at level 61, m at next level, right associativity).
Notation "m ;;; k" := (bind m (fun _ => k))
  (at level 61, right associativity).

Definition get : M St := fun s => (Some s, s).
Definition modify (f : St -> St) : M unit := fun s => (Some tt, f s).

Definition log (e : event) : M unit :=
  modify (fun s => mkSt (static_buf s) (stdout s) (stderr s) ((calls s ++ [e])%list) (phase s)).
Definition set_buf (b : string) : M unit :=
  modify (fun s => mkSt b (stdout s) (stderr s) (calls s) (phase s)).
Definition set_phase (p : ctx_phase) : M unit :=
  modify (fun s => mkSt (static_buf s) (stdout s) (stderr s) (calls s) p).

(** [std::printf(f, args...)]: the arguments have been evaluated; the
    pointers among them are read now. *)
Definition printf (f : string) (args : list arg) : M unit :=
  modify (fun s => mkSt (static_buf s) ((stdout s ++ [format (static_buf s) f args])%list)
                        (stderr s) (calls s) (phase s)).

Definition fprintf_stderr (f : string) (args : list arg) : M unit :=
  modify (fun s => mkSt (static_buf s) (stdout s)
                        ((stderr s ++ [format (static_buf s) f args])%list) (calls s) (phase s)).

Definition newline : string := String (ascii_of_nat 10) EmptyString.

(** [std::puts(s)] writes [s] and a newline. *)
Definition puts (str : string) : M unit :=
  modify (fun s => mkSt (static_buf s) ((stdout s ++ [append str newline])%list)
                        (stderr s) (calls s) (phase s)).

(** ** The program *)

(** [static const char* ApiVersionToStr(uint32_t v)] *)
Definition ApiVersionToStr (v : Z) : M cptr :=
  s <- get ;;
  set_buf (snprintf 64 (static_buf s) "%u.%u.%u"
             [AInt (VK_VERSION_MAJOR v); AInt (VK_VERSION_MINOR v); AInt (VK_VERSION_PATCH v)]) ;;;
  ret PStatic.

(** Lines 15-22 of [main]: the loader version, the baseline unless the
    optional entry point is resolved. *)
Definition queryLoaderVersion (enumerate_instance_version_fn : option (Z -> Z)) : Z :=
  let loader_version := VK_API_VERSION_1_0 in
  match enumerate_instance_version_fn with
  | Some f => f loader_version
  | None => loader_version
  end.

Definition vkCreateInstance (d : Driver) : M Z :=
  let r := create_instance_result d in
  log (EvCreateInstance r) ;;;
  (if r =? VK_SUCCESS then set_phase ContextLive else ret tt) ;;;
  ret r.

Definition vkDestroyInstance : M unit :=
  log EvDestroyInstance ;;; set_phase Terminated.

(** First call: the status and the count. *)
Definition vkEnumeratePhysicalDevices_count (d : Driver) : M (Z * Z) :=
  let (r, n) := enum_count_result d in
  log (EvEnumerateCount r) ;;; ret (r, to_u32 n).

(** Second call, with [count] entries in [buffer]: the status (returned,
    and ignored by the caller), the new count and the new buffer.  With a
    success status ([VK_SUCCESS], [VK_INCOMPLETE]: not negative) at most
    [count] handles are written and [count] is set to their number; with an
    error status the loader returns before writing either, so both keep
    the values the caller passed. *)
Definition vkEnumeratePhysicalDevices_fill (d : Driver) (count : Z) (buffer : list Z)
  : M (Z * Z * list Z) :=
  let (r, hs) := enum_fill_result d in
  log (EvEnumerateFill r) ;;;
  if r <? 0 then ret (r, count, buffer)
  else
    let written := firstn (Z.to_nat count) hs in
    ret (r, Z.of_nat (List.length written), (written ++ skipn (List.length written) buffer)%list).

(** [vkGetPhysicalDeviceProperties]: [VK_NULL_HANDLE] is not a valid
    [physicalDevice]; the loader's trampoline reports it as a fatal error
    and calls [abort()]. *)
Definition vkGetPhysicalDeviceProperties (d : Driver) (h : Z) : M DeviceProps :=
  log (EvGetProperties h) ;;;
  if h =? VK_NULL_HANDLE then abort else ret (device_properties d h).

Definition device_fmt : string :=
  append "  - %s | api %s | driver 0x%x | deviceID 0x%04x" newline.

(** The [for] loop of lines 60-68, iterations [i .. i + k - 1]. *)
Fixpoint device_loop (d : Driver) (physical_devices : list Z) (i k : nat) : M unit :=
  match k with
  | O => ret tt
  | S k' =>
      log (EvReadDevice i) ;;;
      device_props <- vkGetPhysicalDeviceProperties d (nth i physical_devices VK_NULL_HANDLE) ;;
      p <- ApiVersionToStr (apiVersion device_props) ;;
      printf device_fmt [APtr (PStr (deviceName device_props)); APtr p;
                         AInt (driverVersion device_props); AInt (deviceID device_props)] ;;;
      device_loop d physical_devices (S i) k'
  end.

(** [int main()] *)
Definition main (d : Driver) : M Z :=
  log EvGetProcAddr ;;;
  (match enumerate_instance_version d with
   | Some _ => log EvEnumerateInstanceVersion
   | None => ret tt
   end) ;;;
  let loader_version := queryLoaderVersion (enumerate_instance_version d) in
  p <- ApiVersionToStr loader_version ;;
  printf (append "[vk] Loader supports: Vulkan %s" newline) [APtr p] ;;;
  vk_result <- vkCreateInstance d ;;
  if negb (vk_result =? VK_SUCCESS) then
    fprintf_stderr (append "[vk] vkCreateInstance failed: %d" newline) [AInt vk_result] ;;;
    ret 1
  else
    rc <- vkEnumeratePhysicalDevices_count d ;;
    let (vk_result, physical_device_count) := rc in
    if negb (vk_result =? VK_SUCCESS) || (physical_device_count =? 0) then
      fprintf_stderr (append "[vk] No physical devices found (res=%d, count=%u)" newline)
        [AInt vk_result; AInt physical_device_count] ;;;
      vkDestroyInstance ;;;
      ret 1
    else
      log (EvAllocDevices physical_device_count) ;;;
      let physical_devices := repeat VK_NULL_HANDLE (Z.to_nat physical_device_count) in
      r <- vkEnumeratePhysicalDevices_fill d physical_device_count physical_devices ;;
      let '(_, physical_device_count, physical_devices) := r in
      printf (append "[vk] Found %u physical device(s)" newline) [AInt physical_device_count] ;;;
      device_loop d physical_devices 0 (Z.to_nat physical_device_count) ;;;
      vkDestroyInstance ;;;
      puts "[vk] Sanity OK." ;;;
      ret 0.

(** The process: [Some c] when [main] returns [c], [None] when it is
    aborted; and the final state. *)
Definition run (d : Driver) : option Z * St := main d init_st.

Definition exit_code (d : Driver) : option Z := fst (run d).
(** ** Specification-side vocabulary *)

(** The text ["M.m.p"] of a packed version. *)
Definition version_str (v : Z) : string :=
  utoa 10 (VK_VERSION_MAJOR v) ++ "." ++ utoa 10 (VK_VERSION_MINOR v) ++ "."
  ++ utoa 10 (VK_VERSION_PATCH v).

Definition banner (loader_version : Z) : string :=
  "[vk] Loader supports: Vulkan " ++ version_str loader_version ++ newline.

Definition found_line (n : Z) : string :=
  "[vk] Found " ++ utoa 10 (to_u32 n) ++ " physical device(s)" ++ newline.

Definition device_line (p : DeviceProps) : string :=
  "  - " ++ cstr (deviceName p) ++ " | api " ++ version_str (apiVersion p)
  ++ " | driver 0x" ++ utoa 16 (to_u32 (driverVersion p))
  ++ " | deviceID 0x" ++ pad0 4 (utoa 16 (to_u32 (deviceID p))) ++ newline.

Definition ok_line : string := "[vk] Sanity OK." ++ newline.

Definition create_failed_line (r : Z) : string :=
  "[vk] vkCreateInstance failed: " ++ itoa (to_s32 r) ++ newline.

Definition no_devices_line (r n : Z) : string :=
  "[vk] No physical devices found (res=" ++ itoa (to_s32 r) ++ ", count="
  ++ utoa 10 (to_u32 n) ++ ")" ++ newline.

(** Calls made before [vkCreateInstance]. *)
Definition prelude_calls (d : Driver) : list event :=
  EvGetProcAddr :: match enumerate_instance_version d with
                   | Some _ => [EvEnumerateInstanceVersion]
                   | None => []
                   end.

Definition loop_calls (devs : list Z) (i k : nat) : list event :=
  flat_map (fun j => [EvReadDevice j; EvGetProperties (nth j devs VK_NULL_HANDLE)]) (seq i k).

Definition is_create (e : event) : bool :=
  match e with EvCreateInstance _ => true | _ => false end.
Definition is_create_ok (e : event) : bool :=
  match e with EvCreateInstance r => r =? VK_SUCCESS | _ => false end.
Definition is_destroy (e : event) : bool :=
  match e with EvDestroyInstance => true | _ => false end.
Definition is_device_access (e : event) : bool :=
  match e with
  | EvEnumerateCount _ | EvAllocDevices _ | EvEnumerateFill _ | EvReadDevice _
  | EvGetProperties _ => true
  | _ => false
  end.
Definition is_buffer_access (e : event) : bool :=
  match e with EvAllocDevices _ | EvEnumerateFill _ | EvReadDevice _ => true | _ => false end.

Definition count_ev (p : event -> bool) (l : list event) : nat := List.length (filter p l).

(** Output lines that are device lines. *)
Fixpoint starts_with (pre s : string) : bool :=
  match pre with
  | EmptyString => true
  | String c pre' =>
      match s with
      | EmptyString => false
      | String c' s' => Ascii.eqb c c' && starts_with pre' s'
      end
  end.

Definition is_device_line (line : string) : bool := starts_with "  - " line.


(** A character of [0-9a-f]. *)
Definition is_hex_digit (c : ascii) : bool :=
  let n := nat_of_ascii c in
  ((48 <=? n) && (n <=? 57) || (97 <=? n) && (n <=? 102))%nat.

Definition hex_str (s : string) : bool := forallb is_hex_digit (list_ascii_of_string s).

(** Reading back a digit string printed by [%u] or [%x]: the value of a
    character of [0-9a-f], and of a digit string in base [base], most
    significant digit first. *)
Definition digit_value (c : ascii) : Z :=
  let n := Z.of_nat (nat_of_ascii c) in
  if n <=? 57 then n - 48 else n - 87.

Fixpoint digits_value_from (base acc : Z) (s : string) : Z :=
  match s with
  | EmptyString => acc
  | String c s' => digits_value_from base (acc * base + digit_value c) s'
  end.

Definition digits_value (base : Z) (s : string) : Z := digits_value_from base 0 s.

(** The line ends with [" | deviceID 0x"], exactly four hex digits and the
    newline, as the format [... | deviceID 0x<4-hex-digit>] describes. *)
Definition ends_with_4hex_id (line : string) : bool :=
  let L := String.length line in
  ((19 <=? L)%nat
   && String.eqb (substring (L - 19) 14 line) " | deviceID 0x"
   && forallb is_hex_digit (list_ascii_of_string (substring (L - 5) 4 line))
   && String.eqb (substring (L - 1) 1 line) newline)%bool.

(** The text ["M.m.p"] with [M = v >> 22], [m = (v >> 12) & 0x3FF] and
    [p = v & 0xFFF], as the specification of [ApiVersionToStr] states it. *)
Definition claimed_version_text (v : Z) : string :=
  utoa 10 (Z.shiftr v 22) ++ "." ++ utoa 10 (Z.land (Z.shiftr v 12) 1023) ++ "."
  ++ utoa 10 (Z.land v 4095).

(** The number of leading handles that are not [VK_NULL_HANDLE]. *)
Fixpoint leading_nonnull (hs : list Z) : nat :=
  match hs with
  | [] => O
  | h :: hs' => if h =? VK_NULL_HANDLE then O else S (leading_nonnull hs')
  end.

Definition all_nonnull (hs : list Z) : bool :=
  forallb (fun h => negb (h =? VK_NULL_HANDLE)) hs.

Definition is_describe (e : event) : bool :=
  match e with EvGetProperties _ => true | _ => false end.

(** A read of the device vector stays below its allocated size; a handle
    described is one the second enumeration call returned when that call
    succeeded, and [VK_NULL_HANDLE] when it failed. *)
Definition access_ok (tr : list event) (fill : Z * list Z) (e : event) : Prop :=
  match e with
  | EvReadDevice i => exists n, In (EvAllocDevices n) tr /\ (i < Z.to_nat n)%nat
  | EvGetProperties h => if fst fill <? 0 then h = VK_NULL_HANDLE else In h (snd fill)
  | _ => True
  end.

(** ** Sample drivers *)

Definition sample_props (h : Z) : DeviceProps := {|
  deviceName := if h =? 7 then "Integrated GPU" else "Discrete GPU";
  apiVersion := VK_MAKE_VERSION 1 3 (h mod 4096);
  driverVersion := 4660 + h;
  deviceID := 16 * h
|}.

Definition sample_driver (create : Z) (count : Z * Z) (fill : Z * list Z) : Driver := {|
  enumerate_instance_version := Some (fun _ => VK_MAKE_VERSION 1 3 250);
  create_instance_result := create;
  enum_count_result := count;
  enum_fill_result := fill;
  device_properties := sample_props
|}.

(** ** Lemmas on the formatting functions *)

Fixpoint nonul (s : string) : bool :=
  match s with
  | EmptyString => true
  | String c r => negb (Ascii.eqb c Ascii.zero) && nonul r
  end.

Lemma cstr_nonul : forall s, nonul s = true -> cstr s = s.
Proof.
  induction s as [|c r IH]; simpl; [reflexivity|].
  intros H; apply andb_prop in H as [H1 H2].
  apply negb_true_iff in H1; rewrite H1, IH by exact H2; reflexivity.
Qed.

Lemma nonul_append : forall a b, nonul (a ++ b) = nonul a && nonul b.
Proof.
  induction a as [|c r IH]; intros b; simpl; [reflexivity|].
  rewrite IH, andb_assoc; reflexivity.
Qed.

Lemma digit_char_nonul : forall d, 0 <= d < 16 -> Ascii.eqb (digit_char d) Ascii.zero = false.
Proof.
  intros d Hd; apply Bool.not_true_iff_false; intros E.
  apply Ascii.eqb_eq in E.
  assert (N : nat_of_ascii (digit_char d) = 0%nat) by (rewrite E; reflexivity).
  unfold digit_char in N; destruct (d <? 10);
    rewrite Ascii.nat_ascii_embedding in N; lia.
Qed.

Lemma utoa_aux_nonul : forall fuel base n acc,
  0 < base <= 16 -> 0 <= n -> nonul acc = true -> nonul (utoa_aux fuel base n acc) = true.
Proof.
  induction fuel as [|f IH]; intros base n acc Hb Hn Hacc; simpl; [exact Hacc|].
  assert (Hd : 0 <= n mod base < 16) by (pose proof (Z.mod_pos_bound n base); lia).
  assert (Hc : nonul (String (digit_char (n mod base)) acc) = true)
    by (simpl; rewrite digit_char_nonul by exact Hd; exact Hacc).
  destruct (n <? base); [exact Hc|].
  apply IH; [lia| apply Z.div_pos; lia | exact Hc].
Qed.

Lemma utoa_nonul : forall base n, 0 < base <= 16 -> 0 <= n -> nonul (utoa base n) = true.
Proof. intros; apply utoa_aux_nonul; auto. Qed.

Lemma utoa_aux_length : forall fuel base n acc (k : nat),
  1 < base -> 0 <= n -> n < base ^ Z.of_nat k ->
  (String.length (utoa_aux fuel base n acc) <= Nat.max 1 k + String.length acc)%nat.
Proof.
  induction fuel as [|f IH]; intros base n acc k Hb Hn Hk; cbn [utoa_aux]; [lia|].
  destruct (Z.ltb_spec n base) as [Hlt|Hge]; [cbn [String.length]; lia|].
  destruct k as [|k']; [simpl in Hk; lia|].
  destruct k' as [|k'']; [simpl in Hk; lia|].
  specialize (IH base (n / base) (String (digit_char (n mod base)) acc) (S k'') Hb).
  assert (Hq : n / base < base ^ Z.of_nat (S k'')).
  { apply Z.div_lt_upper_bound; [lia|].
    replace (Z.of_nat (S (S k''))) with (Z.succ (Z.of_nat (S k''))) in Hk by lia.
    rewrite Z.pow_succ_r in Hk by lia; exact Hk. }
  specialize (IH (Z.div_pos n base Hn ltac:(lia)) Hq). cbn [String.length] in IH. lia.
Qed.

Lemma substring_all : forall s n, (String.length s <= n)%nat -> substring 0 n s = s.
Proof.
  induction s as [|c r IH]; intros n Hn; destruct n; simpl in *; try reflexivity; [lia|].
  rewrite IH by lia; reflexivity.
Qed.

Lemma to_u32_small : forall z, 0 <= z < 2 ^ 32 -> to_u32 z = z.
Proof. intros z Hz; unfold to_u32; apply Z.mod_small; exact Hz. Qed.

Lemma to_u32_range : forall z, 0 <= to_u32 z < 2 ^ 32.
Proof. intros z; unfold to_u32; apply Z.mod_pos_bound; lia. Qed.

Lemma major_range : forall v, 0 <= VK_VERSION_MAJOR v < 2 ^ 10.
Proof.
  intros v; unfold VK_VERSION_MAJOR; pose proof (to_u32_range v).
  rewrite Z.shiftr_div_pow2 by lia.
  split; [apply Z.div_pos; lia | apply Z.div_lt_upper_bound; lia].
Qed.

Lemma land_ones_range : forall a k, 0 <= k -> 0 <= Z.land a (Z.ones k) < 2 ^ k.
Proof.
  intros a k Hk; rewrite Z.land_ones by exact Hk.
  apply Z.mod_pos_bound; apply Z.pow_pos_nonneg; lia.
Qed.

Lemma minor_range : forall v, 0 <= VK_VERSION_MINOR v < 2 ^ 10.
Proof.
  intros v; unfold VK_VERSION_MINOR; change 1023 with (Z.ones 10).
  apply land_ones_range; lia.
Qed.

Lemma patch_range : forall v, 0 <= VK_VERSION_PATCH v < 2 ^ 12.
Proof.
  intros v; unfold VK_VERSION_PATCH; change 4095 with (Z.ones 12).
  apply land_ones_range; lia.
Qed.

Lemma utoa10_short : forall n, 0 <= n < 10 ^ 4 -> (String.length (utoa 10 n) <= 4)%nat.
Proof.
  intros n Hn; unfold utoa.
  pose proof (utoa_aux_length 32 10 n EmptyString 4 ltac:(lia) ltac:(lia) ltac:(lia)) as H.
  cbn [Nat.max String.length] in H; lia.
Qed.

Lemma append_length : forall a b, String.length (a ++ b) = (String.length a + String.length b)%nat.
Proof. induction a as [|c r IH]; intros b; simpl; [reflexivity | rewrite IH; reflexivity]. Qed.

Lemma version_str_length : forall v, (String.length (version_str v) <= 14)%nat.
Proof.
  intros v; unfold version_str; rewrite !append_length; cbn [String.length].
  pose proof (utoa10_short (VK_VERSION_MAJOR v) ltac:(pose proof (major_range v); lia)).
  pose proof (utoa10_short (VK_VERSION_MINOR v) ltac:(pose proof (minor_range v); lia)).
  pose proof (utoa10_short (VK_VERSION_PATCH v) ltac:(pose proof (patch_range v); lia)).
  lia.
Qed.

Lemma version_str_nonul : forall v, nonul (version_str v) = true.
Proof.
  intros v; unfold version_str; rewrite !nonul_append; cbn [nonul].
  rewrite !utoa_nonul; try lia; auto.
  - pose proof (patch_range v); lia.
  - pose proof (minor_range v); lia.
  - pose proof (major_range v); lia.
Qed.

Lemma append_empty_r : forall s, s ++ "" = s.
Proof. induction s as [|c r IH]; simpl; [reflexivity | rewrite IH; reflexivity]. Qed.

Lemma format_version : forall b x y z,
  format b "%u.%u.%u" [AInt x; AInt y; AInt z]
  = utoa 10 (to_u32 x) ++ "." ++ utoa 10 (to_u32 y) ++ "." ++ (utoa 10 (to_u32 z) ++ "").
Proof. reflexivity. Qed.

(** What [snprintf] leaves in the static buffer: the whole text, which
    never exceeds 14 characters. *)
Lemma ApiVersionToStr_text : forall v b,
  snprintf 64 b "%u.%u.%u"
    [AInt (VK_VERSION_MAJOR v); AInt (VK_VERSION_MINOR v); AInt (VK_VERSION_PATCH v)]
  = version_str v.
Proof.
  intros v b; unfold snprintf; rewrite format_version, append_empty_r.
  pose proof (major_range v); pose proof (minor_range v); pose proof (patch_range v).
  rewrite !to_u32_small by lia.
  apply substring_all; pose proof (version_str_length v); unfold version_str in *; lia.
Qed.

Lemma ApiVersionToStr_spec : forall v s,
  ApiVersionToStr v s
  = (Some PStatic, mkSt (version_str v) (stdout s) (stderr s) (calls s) (phase s)).
Proof.
  intros v s; unfold ApiVersionToStr, bind, get, set_buf, modify, ret.
  rewrite ApiVersionToStr_text; reflexivity.
Qed.

Lemma device_format : forall b p,
  format b device_fmt [APtr (PStr (deviceName p)); APtr PStatic;
                       AInt (driverVersion p); AInt (deviceID p)]
  = "  - " ++ cstr (deviceName p) ++ " | api " ++ cstr b
    ++ " | driver 0x" ++ utoa 16 (to_u32 (driverVersion p))
    ++ " | deviceID 0x" ++ pad0 4 (utoa 16 (to_u32 (deviceID p))) ++ newline.
Proof. reflexivity. Qed.

Lemma device_format_version : forall p,
  format (version_str (apiVersion p)) device_fmt
    [APtr (PStr (deviceName p)); APtr PStatic; AInt (driverVersion p); AInt (deviceID p)]
  = device_line p.
Proof.
  intros p; rewrite device_format, (cstr_nonul (version_str _)) by apply version_str_nonul.
  reflexivity.
Qed.

Ltac st_simpl := cbv beta iota zeta; cbn [static_buf stdout stderr calls phase fst snd negb orb andb].

Lemma device_loop_step : forall d devs i k s,
  nth i devs VK_NULL_HANDLE <> VK_NULL_HANDLE ->
  let p := device_properties d (nth i devs VK_NULL_HANDLE) in
  device_loop d devs i (S k) s
  = device_loop d devs (S i) k
      (mkSt (version_str (apiVersion p)) (stdout s ++ [device_line p])%list (stderr s)
            (calls s ++ [EvReadDevice i; EvGetProperties (nth i devs VK_NULL_HANDLE)])%list
            (phase s)).
Proof.
  intros d devs i k s Hh p; cbn [device_loop].
  unfold vkGetPhysicalDeviceProperties, bind, log, modify, ret; st_simpl.
  apply Z.eqb_neq in Hh; rewrite Hh; st_simpl.
  rewrite ApiVersionToStr_spec; unfold printf, modify; st_simpl.
  rewrite device_format_version, <- app_assoc; reflexivity.
Qed.

(** A [VK_NULL_HANDLE] in the vector: the describe call aborts the process. *)
Lemma device_loop_null : forall d devs i k s,
  nth i devs VK_NULL_HANDLE = VK_NULL_HANDLE ->
  device_loop d devs i (S k) s
  = (None, mkSt (static_buf s) (stdout s) (stderr s)
                (calls s ++ [EvReadDevice i; EvGetProperties VK_NULL_HANDLE])%list (phase s)).
Proof.
  intros d devs i k s Hh; cbn [device_loop].
  unfold vkGetPhysicalDeviceProperties, bind, log, modify, ret, abort; st_simpl.
  rewrite Hh, Z.eqb_refl; st_simpl; rewrite <- app_assoc; reflexivity.
Qed.

Lemma loop_calls_succ : forall devs i m,
  loop_calls devs i (S m)
  = (EvReadDevice i :: EvGetProperties (nth i devs VK_NULL_HANDLE) :: loop_calls devs (S i) m)%list.
Proof. reflexivity. Qed.

(** The loop describes the leading handles that are not [VK_NULL_HANDLE];
    it is aborted at the first one that is. *)
Lemma device_loop_spec : forall d devs k i s,
  let hs := map (fun j => nth j devs VK_NULL_HANDLE) (seq i k) in
  let m := leading_nonnull hs in
  let r := device_loop d devs i k s in
  fst r = (if (m <? k)%nat then None else Some tt)
  /\ stdout (snd r)
     = (stdout s ++ map (fun h => device_line (device_properties d h)) (firstn m hs))%list
  /\ stderr (snd r) = stderr s
  /\ calls (snd r)
     = (calls s ++ loop_calls devs i m
        ++ if (m <? k)%nat then [EvReadDevice (i + m); EvGetProperties VK_NULL_HANDLE] else [])%list
  /\ phase (snd r) = phase s.
Proof.
  intros d devs k; induction k as [|k IH]; intros i s hs m r.
  - unfold r, m, hs, loop_calls; cbn [device_loop seq map leading_nonnull firstn flat_map ret].
    cbn [fst snd Nat.ltb Nat.leb]; rewrite !app_nil_r; auto.
  - unfold r, m, hs; clear r m hs; cbn [seq map leading_nonnull].
    destruct (Z.eqb_spec (nth i devs VK_NULL_HANDLE) VK_NULL_HANDLE) as [Hh|Hh].
    + rewrite device_loop_null by exact Hh; cbn [fst snd stdout stderr calls phase firstn map].
      unfold loop_calls; cbn [seq flat_map Nat.ltb Nat.leb]; rewrite Nat.add_0_r, app_nil_r.
      auto.
    + rewrite device_loop_step by exact Hh.
      match goal with |- context [device_loop d devs (S i) k ?s1] =>
        destruct (IH (S i) s1) as (H0 & H1 & H2 & H3 & H4) end.
      cbn [stdout stderr calls phase] in H1, H2, H3, H4.
      repeat split.
      * rewrite H0; reflexivity.
      * rewrite H1, <- app_assoc; reflexivity.
      * exact H2.
      * rewrite H3, loop_calls_succ, <- app_assoc.
        replace (i + S (leading_nonnull (map (fun j => nth j devs VK_NULL_HANDLE) (seq (S i) k))))%nat
          with (S i + leading_nonnull (map (fun j => nth j devs VK_NULL_HANDLE) (seq (S i) k)))%nat
          by lia.
        reflexivity.
      * exact H4.
Qed.

Lemma banner_format : forall v,
  format (version_str v) ("[vk] Loader supports: Vulkan %s" ++ newline) [APtr PStatic] = banner v.
Proof.
  intros v; unfold banner; rewrite <- (cstr_nonul (version_str v)) at 2 by apply version_str_nonul.
  reflexivity.
Qed.

Lemma create_failed_format : forall b r,
  format b ("[vk] vkCreateInstance failed: %d" ++ newline) [AInt r] = create_failed_line r.
Proof. reflexivity. Qed.

Lemma no_devices_format : forall b r n,
  format b ("[vk] No physical devices found (res=%d, count=%u)" ++ newline) [AInt r; AInt n]
  = no_devices_line r n.
Proof. reflexivity. Qed.

Lemma found_format : forall b n,
  format b ("[vk] Found %u physical device(s)" ++ newline) [AInt n] = found_line n.
Proof. reflexivity. Qed.

Ltac run_unfold :=
  unfold run, main, vkCreateInstance, vkEnumeratePhysicalDevices_count,
    vkEnumeratePhysicalDevices_fill, vkDestroyInstance, fprintf_stderr, printf, puts,
    set_phase, log, modify, bind, ret, init_st;
  st_simpl.

Lemma main_create_failed : forall d,
  create_instance_result d <> VK_SUCCESS ->
  run d = (Some 1, mkSt (version_str (queryLoaderVersion (enumerate_instance_version d)))
                   [banner (queryLoaderVersion (enumerate_instance_version d))]
                   [create_failed_line (create_instance_result d)]
                   (prelude_calls d ++ [EvCreateInstance (create_instance_result d)])%list
                   Uninitialized).
Proof.
  intros d Hc; apply Z.eqb_neq in Hc.
  unfold prelude_calls; run_unfold; destruct (enumerate_instance_version d) eqn:E; st_simpl;
  rewrite ApiVersionToStr_spec; st_simpl; rewrite Hc; st_simpl; rewrite Hc; st_simpl;
  rewrite banner_format, create_failed_format; reflexivity.
Qed.

Lemma main_no_devices : forall d r n,
  create_instance_result d = VK_SUCCESS ->
  enum_count_result d = (r, n) ->
  negb (r =? VK_SUCCESS) || (to_u32 n =? 0) = true ->
  run d = (Some 1, mkSt (version_str (queryLoaderVersion (enumerate_instance_version d)))
                   [banner (queryLoaderVersion (enumerate_instance_version d))]
                   [no_devices_line r (to_u32 n)]
                   (prelude_calls d ++ [EvCreateInstance VK_SUCCESS; EvEnumerateCount r;
                                        EvDestroyInstance])%list
                   Terminated).
Proof.
  intros d r n Hc He Hb.
  assert (Hc' : (create_instance_result d =? VK_SUCCESS) = true) by (apply Z.eqb_eq; exact Hc).
  unfold prelude_calls; run_unfold; destruct (enumerate_instance_version d) eqn:E; st_simpl;
  rewrite ApiVersionToStr_spec; st_simpl; rewrite Hc'; st_simpl; rewrite Hc'; st_simpl;
  rewrite He; st_simpl;
  destruct (r =? VK_SUCCESS), (to_u32 n =? 0); cbn in Hb; try discriminate Hb; st_simpl;
  rewrite banner_format, no_devices_format, Hc; reflexivity.
Qed.

Lemma map_nth_app : forall {B} (f : Z -> B) (w rest : list Z),
  map (fun j => f (nth j (w ++ rest)%list VK_NULL_HANDLE)) (seq 0 (List.length w)) = map f w.
Proof.
  intros B f w rest; induction w as [|a w IH]; [reflexivity|].
  cbn [List.length seq map]; rewrite <- seq_shift, map_map; cbn [nth app].
  f_equal; exact IH.
Qed.

Lemma map_nth_app_id : forall (w rest : list Z),
  map (fun j => nth j (w ++ rest)%list VK_NULL_HANDLE) (seq 0 (List.length w)) = w.
Proof. intros w rest; rewrite (map_nth_app (fun h => h)), map_id; reflexivity. Qed.

Lemma leading_nonnull_le : forall l, (leading_nonnull l <= List.length l)%nat.
Proof.
  induction l as [|h l IH]; cbn [leading_nonnull List.length]; [lia|].
  destruct (h =? VK_NULL_HANDLE); lia.
Qed.

Lemma leading_nonnull_ltb : forall l,
  (leading_nonnull l <? List.length l)%nat = negb (all_nonnull l).
Proof.
  induction l as [|h l IH]; [reflexivity|].
  unfold all_nonnull in *; cbn [leading_nonnull List.length forallb].
  destruct (h =? VK_NULL_HANDLE); cbn [negb andb]; [reflexivity|].
  rewrite <- IH; reflexivity.
Qed.

Lemma leading_nonnull_all : forall l,
  all_nonnull l = true -> leading_nonnull l = List.length l.
Proof.
  intros l H; pose proof (leading_nonnull_le l) as Hle; pose proof (leading_nonnull_ltb l) as Hlt.
  rewrite H in Hlt; cbn [negb] in Hlt; apply Nat.ltb_ge in Hlt; lia.
Qed.

(** The second enumeration call fails: the vector keeps its
    [VK_NULL_HANDLE]s and the count its value, and the first describe call
    aborts the process. *)
Lemma main_fill_failed : forall d n r2 hs,
  create_instance_result d = VK_SUCCESS ->
  enum_count_result d = (VK_SUCCESS, n) ->
  to_u32 n <> 0 ->
  enum_fill_result d = (r2, hs) ->
  r2 < 0 ->
  run d = (None, mkSt (version_str (queryLoaderVersion (enumerate_instance_version d)))
                      [banner (queryLoaderVersion (enumerate_instance_version d));
                       found_line (to_u32 n)]
                      []
                      (prelude_calls d ++ [EvCreateInstance VK_SUCCESS; EvEnumerateCount VK_SUCCESS;
                         EvAllocDevices (to_u32 n); EvEnumerateFill r2;
                         EvReadDevice 0; EvGetProperties VK_NULL_HANDLE])%list
                      ContextLive).
Proof.
  intros d n r2 hs Hc He Hn Hf Hr.
  assert (Hc' : (create_instance_result d =? VK_SUCCESS) = true) by (apply Z.eqb_eq; exact Hc).
  assert (Hn' : (to_u32 n =? 0) = false) by (apply Z.eqb_neq; exact Hn).
  assert (Hr' : (r2 <? 0) = true) by (apply Z.ltb_lt; exact Hr).
  assert (HN : exists k, Z.to_nat (to_u32 n) = S k).
  { pose proof (to_u32_range n); exists (Z.to_nat (to_u32 n) - 1)%nat; lia. }
  destruct HN as [k HN].
  unfold prelude_calls; run_unfold; destruct (enumerate_instance_version d) eqn:E; st_simpl;
  rewrite ApiVersionToStr_spec; st_simpl; rewrite Hc'; st_simpl; rewrite Hc'; st_simpl;
  rewrite He; st_simpl; rewrite Z.eqb_refl, Hn'; st_simpl; rewrite Hf; st_simpl;
  rewrite Hr'; st_simpl; rewrite HN, device_loop_null by reflexivity; st_simpl;
  rewrite banner_format, found_format, Hc; reflexivity.
Qed.

(** The second enumeration call succeeds: the handles written are
    described in order, up to the first [VK_NULL_HANDLE] among them, where
    the process is aborted. *)
Lemma main_listing_gen : forall d n r2 hs,
  create_instance_result d = VK_SUCCESS ->
  enum_count_result d = (VK_SUCCESS, n) ->
  to_u32 n <> 0 ->
  enum_fill_result d = (r2, hs) ->
  0 <= r2 ->
  let N := Z.to_nat (to_u32 n) in
  let w := firstn N hs in
  let buf := (w ++ skipn (List.length w) (repeat VK_NULL_HANDLE N))%list in
  let m := leading_nonnull w in
  let ab := (m <? List.length w)%nat in
  let lv := queryLoaderVersion (enumerate_instance_version d) in
  let s := snd (run d) in
  fst (run d) = (if ab then None else Some 0)
  /\ stdout s = ([banner lv; found_line (Z.of_nat (List.length w))]
                 ++ map (fun h => device_line (device_properties d h)) (firstn m w)
                 ++ if ab then [] else [ok_line])%list
  /\ stderr s = []
  /\ calls s = (prelude_calls d ++ [EvCreateInstance VK_SUCCESS; EvEnumerateCount VK_SUCCESS;
                 EvAllocDevices (to_u32 n); EvEnumerateFill r2]
                 ++ loop_calls buf 0 m
                 ++ if ab then [EvReadDevice m; EvGetProperties VK_NULL_HANDLE]
                    else [EvDestroyInstance])%list
  /\ phase s = (if ab then ContextLive else Terminated).
Proof.
  intros d n r2 hs Hc He Hn Hf Hr N w buf m ab lv s.
  assert (Hc' : (create_instance_result d =? VK_SUCCESS) = true) by (apply Z.eqb_eq; exact Hc).
  assert (Hn' : (to_u32 n =? 0) = false) by (apply Z.eqb_neq; exact Hn).
  assert (Hr' : (r2 <? 0) = false) by (apply Z.ltb_ge; exact Hr).
  unfold s, lv, ab, m, buf, w, N; clear s lv ab m buf w N.
  unfold prelude_calls; run_unfold; destruct (enumerate_instance_version d) eqn:E; st_simpl;
  rewrite ApiVersionToStr_spec; st_simpl; rewrite Hc'; st_simpl; rewrite Hc'; st_simpl;
  rewrite He; st_simpl; rewrite Z.eqb_refl, Hn'; st_simpl; rewrite Hf; st_simpl;
  rewrite Hr'; st_simpl; rewrite Nat2Z.id;
  match goal with |- context [device_loop ?d ?b ?i ?k ?s] =>
    pose proof (device_loop_spec d b k i s) as HL; destruct (device_loop d b i k s) as [o s'] end;
  cbv zeta in HL; cbn [fst snd stdout stderr calls phase] in HL;
  rewrite map_nth_app_id in HL; destruct HL as (H0 & H1 & H2 & H3 & H4);
  destruct (leading_nonnull (firstn (Z.to_nat (to_u32 n)) hs)
            <? List.length (firstn (Z.to_nat (to_u32 n)) hs))%nat;
  subst o; st_simpl;
  rewrite ?H1, ?H2, ?H3, ?H4, banner_format, found_format, Hc;
  repeat split; rewrite ?app_nil_r, <- ?app_assoc; reflexivity.
Qed.

(** The listing path: every handle written is described and the program
    returns 0. *)
Lemma main_listing : forall d n r2 hs,
  create_instance_result d = VK_SUCCESS ->
  enum_count_result d = (VK_SUCCESS, n) ->
  to_u32 n <> 0 ->
  enum_fill_result d = (r2, hs) ->
  0 <= r2 ->
  all_nonnull (firstn (Z.to_nat (to_u32 n)) hs) = true ->
  let N := Z.to_nat (to_u32 n) in
  let w := firstn N hs in
  let buf := (w ++ skipn (List.length w) (repeat VK_NULL_HANDLE N))%list in
  let lv := queryLoaderVersion (enumerate_instance_version d) in
  let s := snd (run d) in
  fst (run d) = Some 0
  /\ stdout s = ([banner lv; found_line (Z.of_nat (List.length w))]
                 ++ map (fun h => device_line (device_properties d h)) w ++ [ok_line])%list
  /\ stderr s = []
  /\ calls s = (prelude_calls d ++ [EvCreateInstance VK_SUCCESS; EvEnumerateCount VK_SUCCESS;
                 EvAllocDevices (to_u32 n); EvEnumerateFill r2]
                 ++ loop_calls buf 0 (List.length w) ++ [EvDestroyInstance])%list
  /\ phase s = Terminated.
Proof.
  intros d n r2 hs Hc He Hn Hf Hr Ha N w buf lv s.
  destruct (main_listing_gen d n r2 hs Hc He Hn Hf Hr) as (H0 & H1 & H2 & H3 & H4).
  fold N w buf lv s in H0, H1, H2, H3, H4.
  assert (Hm : leading_nonnull w = List.length w) by (apply leading_nonnull_all; exact Ha).
  rewrite Hm, Nat.ltb_irrefl, firstn_all in *.
  repeat split; assumption.
Qed.

(** The exit status from the responses of the driver. *)
Lemma exit_code_cases : forall d,
  exit_code d
  = if (create_instance_result d =? VK_SUCCESS)
       && (fst (enum_count_result d) =? VK_SUCCESS)
       && negb (to_u32 (snd (enum_count_result d)) =? 0)
    then (if fst (enum_fill_result d) <? 0 then None
          else if all_nonnull (firstn (Z.to_nat (to_u32 (snd (enum_count_result d))))
                                 (snd (enum_fill_result d)))
               then Some 0 else None)
    else Some 1.
Proof.
  intros d; unfold exit_code.
  destruct (create_instance_result d =? VK_SUCCESS) eqn:Hc; cbn [andb].
  2: { apply Z.eqb_neq in Hc; rewrite (main_create_failed d Hc); reflexivity. }
  apply Z.eqb_eq in Hc.
  destruct (enum_count_result d) as [r n] eqn:He; cbn [fst snd].
  destruct (negb (r =? VK_SUCCESS) || (to_u32 n =? 0)) eqn:Hb.
  - rewrite (main_no_devices d r n Hc He Hb).
    destruct (r =? VK_SUCCESS), (to_u32 n =? 0); cbn in *; congruence.
  - destruct (r =? VK_SUCCESS) eqn:Hr, (to_u32 n =? 0) eqn:Hn; cbn in Hb; try discriminate.
    apply Z.eqb_eq in Hr; apply Z.eqb_neq in Hn; subst r; cbn [andb negb].
    destruct (enum_fill_result d) as [r2 hs] eqn:Hf; cbn [fst snd].
    destruct (Z.ltb_spec r2 0) as [Hr2|Hr2].
    + rewrite (main_fill_failed d n r2 hs Hc He Hn Hf Hr2); reflexivity.
    + destruct (main_listing_gen d n r2 hs Hc He Hn Hf Hr2) as [H0 _]; rewrite H0.
      rewrite leading_nonnull_ltb; destruct (all_nonnull _); reflexivity.
Qed.

Lemma flat_map_loop_filter : forall (p : event -> bool) (devs : list Z) (l : list nat),
  (forall j, p (EvReadDevice j) = false) -> (forall h, p (EvGetProperties h) = false) ->
  filter p (flat_map (fun j => [EvReadDevice j; EvGetProperties (nth j devs VK_NULL_HANDLE)]) l)
  = [].
Proof.
  intros p devs l H1 H2; induction l as [|j l IH]; [reflexivity|].
  cbn [flat_map app filter]; rewrite H1, H2; exact IH.
Qed.

Lemma count_ev_app : forall p l1 l2,
  count_ev p (l1 ++ l2)%list = (count_ev p l1 + count_ev p l2)%nat.
Proof. intros p l1 l2; unfold count_ev; rewrite filter_app, length_app; reflexivity. Qed.

Lemma count_loop_calls : forall p devs i k,
  (forall j, p (EvReadDevice j) = false) -> (forall h, p (EvGetProperties h) = false) ->
  count_ev p (loop_calls devs i k) = 0%nat.
Proof.
  intros p devs i k H1 H2; unfold count_ev, loop_calls.
  rewrite flat_map_loop_filter by assumption; reflexivity.
Qed.

(** In a trace that ends with its only [EvDestroyInstance], nothing follows
    the destruction. *)
Lemma nothing_after_last : forall (x l1 l2 : list event),
  count_ev is_destroy x = 0%nat ->
  (x ++ [EvDestroyInstance])%list = (l1 ++ EvDestroyInstance :: l2)%list ->
  l2 = [].
Proof.
  intros x l1 l2 Hx Heq.
  destruct l2 as [|e l2' _] using rev_ind; [reflexivity|].
  exfalso.
  replace (l1 ++ EvDestroyInstance :: l2' ++ [e])%list
    with ((l1 ++ EvDestroyInstance :: l2') ++ [e])%list in Heq
    by (rewrite <- app_assoc; reflexivity).
  apply app_inj_tail in Heq as [Hx' _]; subst x.
  rewrite count_ev_app in Hx; cbn in Hx; lia.
Qed.

Lemma count_prelude : forall p d,
  p EvGetProcAddr = false -> p EvEnumerateInstanceVersion = false ->
  count_ev p (prelude_calls d) = 0%nat.
Proof.
  intros p d H1 H2; unfold count_ev, prelude_calls;
    destruct (enumerate_instance_version d); cbn; rewrite H1; try rewrite H2; reflexivity.
Qed.

Ltac count_calls :=
  repeat rewrite count_ev_app;
  repeat rewrite count_prelude by reflexivity;
  repeat rewrite count_loop_calls by reflexivity;
  cbn.

(** ** The paths of [main] *)

(** Splits on the four paths of [main]: no device (first call failed or
    counted none), second call failed, listing, creation failed. *)
Ltac split_paths d :=
  destruct (Z.eqb_spec (create_instance_result d) VK_SUCCESS) as [Hc|Hc];
  [ destruct (enum_count_result d) as [r n] eqn:He;
    destruct (negb (r =? VK_SUCCESS) || (to_u32 n =? 0)) eqn:Hb;
    [ | destruct (r =? VK_SUCCESS) eqn:Hr, (to_u32 n =? 0) eqn:Hn; cbn in Hb; try discriminate Hb;
        apply Z.eqb_eq in Hr; apply Z.eqb_neq in Hn; subst r;
        destruct (enum_fill_result d) as [r2 hs] eqn:Hf;
        destruct (Z.ltb_spec r2 0) as [Hr2|Hr2] ]
  | ].

Lemma to_s32_small : forall z, - 2 ^ 31 <= z < 2 ^ 31 -> to_s32 z = z.
Proof.
  intros z Hz; unfold to_s32, to_u32.
  destruct (Z.leb_spec 0 z) as [Hp|Hn].
  - rewrite Z.mod_small by lia; destruct (Z.ltb_spec z (2 ^ 31)); lia.
  - replace (z mod 2 ^ 32) with (z + 2 ^ 32).
    + destruct (Z.ltb_spec (z + 2 ^ 32) (2 ^ 31)); lia.
    + apply Z.mod_unique with (-1); lia.
Qed.

Lemma last_app_nonnil : forall {A} (l l' : list A) d,
  l' <> [] -> last (l ++ l')%list d = last l' d.
Proof.
  intros A l; induction l as [|a l IH]; intros l' d Hl; [reflexivity|].
  cbn [app last]; destruct (l ++ l')%list eqn:E.
  - apply app_eq_nil in E; tauto.
  - rewrite <- E; apply IH; exact Hl.
Qed.

Lemma no_destroy_in : forall x l1 l2,
  count_ev is_destroy x = 0%nat -> x = (l1 ++ EvDestroyInstance :: l2)%list -> False.
Proof.
  intros x l1 l2 Hx Heq; subst x.
  rewrite count_ev_app in Hx; cbn in Hx; lia.
Qed.

Lemma leading_nonnull_null : forall l,
  (leading_nonnull l < List.length l)%nat ->
  nth (leading_nonnull l) l VK_NULL_HANDLE = VK_NULL_HANDLE.
Proof.
  induction l as [|h l IH]; cbn [leading_nonnull List.length]; [lia|].
  destruct (Z.eqb_spec h VK_NULL_HANDLE) as [E|E]; intros Hl; [exact E|].
  cbn [nth]; apply IH; lia.
Qed.

Lemma in_firstn_in : forall (x : Z) k l, In x (firstn k l) -> In x l.
Proof.
  intros x k l H; rewrite <- (firstn_skipn k l); apply in_or_app; left; exact H.
Qed.

Lemma device_line_is_device_line : forall p, is_device_line (device_line p) = true.
Proof. reflexivity. Qed.

Lemma filter_banner : forall lv, filter is_device_line [banner lv] = [].
Proof.
  intros lv; cbn [filter]; change (is_device_line (banner lv)) with false; reflexivity.
Qed.

Lemma listing_device_lines_tail : forall lv n (ps : list DeviceProps) t,
  filter is_device_line t = [] ->
  filter is_device_line ([banner lv; found_line n] ++ map device_line ps ++ t)%list
  = map device_line ps.
Proof.
  intros lv n ps t Ht; cbn [app filter].
  change (is_device_line (banner lv)) with false.
  change (is_device_line (found_line n)) with false.
  rewrite filter_app, Ht, app_nil_r.
  induction ps as [|p ps IH]; [reflexivity|].
  cbn [map filter]; rewrite device_line_is_device_line, IH; reflexivity.
Qed.

Lemma listing_device_lines : forall lv n (ps : list DeviceProps),
  filter is_device_line ([banner lv; found_line n] ++ map device_line ps ++ [ok_line])%list
  = map device_line ps.
Proof. intros lv n ps; apply listing_device_lines_tail; reflexivity. Qed.

Lemma filter_banner_found : forall lv n,
  filter is_device_line [banner lv; found_line n] = [].
Proof. intros lv n; exact (listing_device_lines_tail lv n [] [] eq_refl). Qed.

(** On every path the first line written is the banner. *)
Lemma run_stdout_head : forall d,
  hd_error (stdout (snd (run d)))
  = Some (banner (queryLoaderVersion (enumerate_instance_version d))).
Proof.
  intros d; split_paths d.
  - rewrite (main_no_devices d r n Hc He Hb); reflexivity.
  - rewrite (main_fill_failed d n r2 hs Hc He Hn Hf Hr2); reflexivity.
  - destruct (main_listing_gen d n r2 hs Hc He Hn Hf Hr2) as (_ & Hout & _).
    rewrite Hout; reflexivity.
  - rewrite (main_create_failed d Hc); reflexivity.
Qed.

(** The device lines of a run: those of the handles written by a successful
    second call, up to the first [VK_NULL_HANDLE] among them; none on the
    other paths. *)
Lemma device_lines_of_run : forall d,
  filter is_device_line (stdout (snd (run d)))
  = if (create_instance_result d =? VK_SUCCESS) && (fst (enum_count_result d) =? VK_SUCCESS)
       && negb (to_u32 (snd (enum_count_result d)) =? 0)
       && negb (fst (enum_fill_result d) <? 0)
    then let w := firstn (Z.to_nat (to_u32 (snd (enum_count_result d))))
                         (snd (enum_fill_result d)) in
         map (fun h => device_line (device_properties d h)) (firstn (leading_nonnull w) w)
    else [].
Proof.
  intros d; split_paths d.
  - rewrite (main_no_devices d r n Hc He Hb); cbn [snd stdout fst].
    rewrite filter_banner.
    destruct (r =? VK_SUCCESS), (to_u32 n =? 0); cbn in Hb |- *; try discriminate Hb;
      reflexivity.
  - rewrite (main_fill_failed d n r2 hs Hc He Hn Hf Hr2); cbn [snd stdout fst].
    rewrite filter_banner_found, Z.eqb_refl.
    apply Z.eqb_neq in Hn; rewrite ?Hn; apply Z.ltb_lt in Hr2; rewrite Hr2; reflexivity.
  - destruct (main_listing_gen d n r2 hs Hc He Hn Hf Hr2) as (_ & Hout & _).
    rewrite Hout, <- (map_map (device_properties d) device_line), listing_device_lines_tail
      by (destruct (_ <? _)%nat; reflexivity).
    rewrite map_map; cbn [fst snd].
    apply Z.eqb_neq in Hn; rewrite ?Hn; apply Z.ltb_ge in Hr2; rewrite Hr2; reflexivity.
  - rewrite (main_create_failed d Hc); cbn [snd stdout].
    rewrite filter_banner; reflexivity.
Qed.

Lemma version_str_u32 : forall v, 0 <= v < 2 ^ 32 -> version_str v = claimed_version_text v.
Proof.
  intros v Hv; unfold version_str, claimed_version_text,
    VK_VERSION_MAJOR, VK_VERSION_MINOR, VK_VERSION_PATCH.
  rewrite to_u32_small by exact Hv; reflexivity.
Qed.

(** ** Claims *)

(** C1, as the code has it: [main] returns 0 exactly when
    [vkCreateInstance] succeeded, the first enumeration call succeeded with
    a non-zero count and the second one succeeded with non-null handles; it
    returns 1 exactly when [vkCreateInstance] failed or the first
    enumeration call failed or counted no device. In the remaining case
    (the second call failed, its status being unchecked) [VK_NULL_HANDLE]
    reaches [vkGetPhysicalDeviceProperties] and the process is aborted: it
    returns neither 0 nor 1. *)
Theorem exit_code_spec : forall d,
  let ok := create_instance_result d = VK_SUCCESS /\ fst (enum_count_result d) = VK_SUCCESS
            /\ to_u32 (snd (enum_count_result d)) <> 0 in
  let w := firstn (Z.to_nat (to_u32 (snd (enum_count_result d)))) (snd (enum_fill_result d)) in
  (exit_code d = Some 0 <-> ok /\ 0 <= fst (enum_fill_result d) /\ all_nonnull w = true)
  /\ (exit_code d = Some 1 <->
      create_instance_result d <> VK_SUCCESS \/ fst (enum_count_result d) <> VK_SUCCESS
      \/ to_u32 (snd (enum_count_result d)) = 0)
  /\ (exit_code d = None <-> ok /\ (fst (enum_fill_result d) < 0 \/ all_nonnull w = false)).
Proof.
  intros d ok w; unfold ok, w; clear ok w; rewrite exit_code_cases.
  destruct (Z.eqb_spec (create_instance_result d) VK_SUCCESS);
  destruct (Z.eqb_spec (fst (enum_count_result d)) VK_SUCCESS);
  destruct (Z.eqb_spec (to_u32 (snd (enum_count_result d))) 0);
  destruct (Z.ltb_spec (fst (enum_fill_result d)) 0);
  destruct (all_nonnull (firstn (Z.to_nat (to_u32 (snd (enum_count_result d))))
                                (snd (enum_fill_result d))));
  cbn [andb negb]; intuition (try discriminate; try congruence; try lia).
Qed.

(** C1 fails as stated: [vkCreateInstance] succeeds and the first
    enumeration call counts 2 devices, but the second call fails with -3;
    the process is aborted, returning neither 0 nor 1. *)
Lemma second_enumeration_failure_exit :
  create_instance_result (sample_driver 0 (0, 2) (-3, [7; 9])) = VK_SUCCESS
  /\ enum_count_result (sample_driver 0 (0, 2) (-3, [7; 9])) = (VK_SUCCESS, 2)
  /\ exit_code (sample_driver 0 (0, 2) (-3, [7; 9])) = None.
Proof. repeat split; vm_compute; reflexivity. Qed.

(** C2, as the code has it: [vkCreateInstance] is called once; no
    creation follows a destruction; after a failed creation the instance is
    never destroyed nor live; after a successful one it is destroyed once
    and ends [Terminated] when [main] returns, but when the process is
    aborted (second enumeration call failed) it is never destroyed and is
    still live. *)
Theorem instance_lifecycle : forall d,
  let st := snd (run d) in
  count_ev is_create (calls st) = 1%nat
  /\ count_ev is_destroy (calls st)
     = (if create_instance_result d =? VK_SUCCESS
        then match exit_code d with Some _ => 1%nat | None => 0%nat end
        else 0%nat)
  /\ (forall l1 l2, calls st = (l1 ++ EvDestroyInstance :: l2)%list ->
        count_ev is_create l2 = 0%nat)
  /\ phase st = (if create_instance_result d =? VK_SUCCESS
                 then match exit_code d with Some _ => Terminated | None => ContextLive end
                 else Uninitialized).
Proof.
  intros d st; unfold st, exit_code; clear st.
  split_paths d.
  - rewrite (main_no_devices d r n Hc He Hb); cbn [fst snd calls phase].
    repeat split; [count_calls; reflexivity | count_calls; reflexivity | ].
    intros l1 l2 Heq.
    replace (prelude_calls d ++ [EvCreateInstance VK_SUCCESS; EvEnumerateCount r; EvDestroyInstance])%list
      with ((prelude_calls d ++ [EvCreateInstance VK_SUCCESS; EvEnumerateCount r]) ++ [EvDestroyInstance])%list
      in Heq by (rewrite <- app_assoc; reflexivity).
    apply nothing_after_last in Heq; [subst l2; reflexivity | count_calls; reflexivity].
  - rewrite (main_fill_failed d n r2 hs Hc He Hn Hf Hr2); cbn [fst snd calls phase].
    repeat split; [count_calls; reflexivity | count_calls; reflexivity | ].
    intros l1 l2 Heq; exfalso; refine (no_destroy_in _ l1 l2 _ Heq); count_calls; reflexivity.
  - destruct (main_listing_gen d n r2 hs Hc He Hn Hf Hr2) as (H0 & _ & _ & Hcalls & Hph).
    rewrite H0, Hcalls, Hph; clear H0 Hcalls Hph.
    destruct (_ <? _)%nat.
    + repeat split; [count_calls; reflexivity | count_calls; reflexivity | ].
      intros l1 l2 Heq; exfalso; refine (no_destroy_in _ l1 l2 _ Heq); count_calls; reflexivity.
    + repeat split; [count_calls; reflexivity | count_calls; reflexivity | ].
      intros l1 l2 Heq.
      rewrite !app_assoc in Heq.
      apply nothing_after_last in Heq; [subst l2; reflexivity | count_calls; reflexivity].
  - rewrite (main_create_failed d Hc); cbn [snd calls phase].
    repeat split; [count_calls; reflexivity | count_calls; reflexivity | ].
    intros l1 l2 Heq; exfalso; refine (no_destroy_in _ l1 l2 _ Heq); count_calls; reflexivity.
Qed.

(** C2 fails as stated: after a successful creation, a failing second
    enumeration call leads to an abort with the instance still live and
    never destroyed. *)
Lemma second_enumeration_failure_leaks_instance :
  create_instance_result (sample_driver 0 (0, 2) (-3, [7; 9])) = VK_SUCCESS
  /\ exit_code (sample_driver 0 (0, 2) (-3, [7; 9])) = None
  /\ count_ev is_destroy (calls (snd (run (sample_driver 0 (0, 2) (-3, [7; 9]))))) = 0%nat
  /\ phase (snd (run (sample_driver 0 (0, 2) (-3, [7; 9])))) = ContextLive.
Proof. repeat split; vm_compute; reflexivity. Qed.

(** C3: when the first enumeration call succeeds with a count of 0, the
    program exits with 1, destroys the instance once as its last call, and
    reports the count 0 on standard error. *)
Theorem empty_enumeration_exits_1 : forall d,
  create_instance_result d = VK_SUCCESS ->
  enum_count_result d = (VK_SUCCESS, 0) ->
  exit_code d = Some 1
  /\ count_ev is_destroy (calls (snd (run d))) = 1%nat
  /\ last (calls (snd (run d))) EvGetProcAddr = EvDestroyInstance
  /\ phase (snd (run d)) = Terminated
  /\ stderr (snd (run d)) = ["[vk] No physical devices found (res=0, count=0)" ++ newline].
Proof.
  intros d Hc He.
  unfold exit_code; rewrite (main_no_devices d VK_SUCCESS 0 Hc He eq_refl); cbn [fst snd calls phase stderr].
  repeat split.
  - count_calls; reflexivity.
  - unfold prelude_calls; destruct (enumerate_instance_version d); reflexivity.
Qed.

Lemma empty_enumeration_witness :
  create_instance_result (sample_driver 0 (0, 0) (0, [])) = VK_SUCCESS
  /\ enum_count_result (sample_driver 0 (0, 0) (0, [])) = (VK_SUCCESS, 0)
  /\ exit_code (sample_driver 0 (0, 0) (0, [])) = Some 1.
Proof.
  split; [reflexivity | split; [reflexivity |]].
  apply (empty_enumeration_exits_1 (sample_driver 0 (0, 0) (0, []))); reflexivity.
Defined.

(** C4: when [vkCreateInstance] fails with status [r], the program prints
    [r] in decimal on standard error, exits with 1, and makes no
    enumeration call and no destruction. *)
Theorem create_failure_exits_1 : forall d,
  create_instance_result d <> VK_SUCCESS ->
  - 2 ^ 31 <= create_instance_result d < 2 ^ 31 ->
  exit_code d = Some 1
  /\ stderr (snd (run d))
     = ["[vk] vkCreateInstance failed: " ++ itoa (create_instance_result d) ++ newline]
  /\ count_ev is_device_access (calls (snd (run d))) = 0%nat
  /\ count_ev is_destroy (calls (snd (run d))) = 0%nat
  /\ phase (snd (run d)) = Uninitialized.
Proof.
  intros d Hc Hr.
  unfold exit_code; rewrite (main_create_failed d Hc); cbn [fst snd calls phase stderr].
  unfold create_failed_line; rewrite to_s32_small by exact Hr.
  repeat split; count_calls; reflexivity.
Qed.

Lemma create_failure_witness :
  create_instance_result (sample_driver (-3) (0, 0) (0, [])) <> VK_SUCCESS
  /\ - 2 ^ 31 <= create_instance_result (sample_driver (-3) (0, 0) (0, [])) < 2 ^ 31
  /\ stderr (snd (run (sample_driver (-3) (0, 0) (0, []))))
     = ["[vk] vkCreateInstance failed: -3" ++ newline].
Proof.
  split; [discriminate | split; [cbn; lia |]].
  apply (create_failure_exits_1 (sample_driver (-3) (0, 0) (0, []))); [discriminate | cbn; lia].
Defined.

(** C5: when the first enumeration call fails, the program exits with 1
    without allocating, filling or reading the device buffer. *)
Theorem enumeration_failure_no_buffer : forall d,
  create_instance_result d = VK_SUCCESS ->
  fst (enum_count_result d) <> VK_SUCCESS ->
  exit_code d = Some 1
  /\ count_ev is_buffer_access (calls (snd (run d))) = 0%nat.
Proof.
  intros d Hc Hr.
  destruct (enum_count_result d) as [r n] eqn:He; cbn [fst] in Hr.
  assert (Hb : negb (r =? VK_SUCCESS) || (to_u32 n =? 0) = true)
    by (apply Z.eqb_neq in Hr; rewrite Hr; reflexivity).
  unfold exit_code; rewrite (main_no_devices d r n Hc He Hb); cbn [fst snd calls].
  split; [reflexivity | count_calls; reflexivity].
Qed.

Lemma enumeration_failure_witness :
  create_instance_result (sample_driver 0 (-3, 2) (0, [7; 9])) = VK_SUCCESS
  /\ fst (enum_count_result (sample_driver 0 (-3, 2) (0, [7; 9]))) <> VK_SUCCESS
  /\ exit_code (sample_driver 0 (-3, 2) (0, [7; 9])) = Some 1.
Proof.
  split; [reflexivity | split; [discriminate |]].
  apply (enumeration_failure_no_buffer (sample_driver 0 (-3, 2) (0, [7; 9])));
    [reflexivity | discriminate].
Defined.

(** C6: without the entry point the loader version is exactly the baseline
    1.0.0; with it, it is what the entry point leaves in the variable
    initialised to the baseline, so it is at least 1.0.0 whenever the
    loader reports at least 1.0.0, as every loader providing
    [vkEnumerateInstanceVersion] does. The query itself never fails. *)
Theorem loader_version_spec :
  queryLoaderVersion None = VK_API_VERSION_1_0
  /\ version_str (queryLoaderVersion None) = "1.0.0"
  /\ (forall f, queryLoaderVersion (Some f) = f VK_API_VERSION_1_0)
  /\ (forall f, (forall x, VK_API_VERSION_1_0 <= f x) ->
        VK_API_VERSION_1_0 <= queryLoaderVersion (Some f)).
Proof.
  repeat split; [intros f Hf; exact (Hf VK_API_VERSION_1_0)].
Qed.

(** C7, as the code has it: when the driver reports [N > 0] devices in
    both enumeration calls, with [N] valid (non-null) handles, the program
    exits with 0 and prints the banner, the count, exactly [N] device
    lines, one per device in the driver's order, each
    [  - <name> | api <M.m.p> | driver 0x<hex> | deviceID 0x<hex>] with the
    device id zero-padded to at least four hex digits, and the final
    line. *)
Theorem device_listing : forall d n s hs,
  create_instance_result d = VK_SUCCESS ->
  enum_count_result d = (VK_SUCCESS, n) ->
  0 < n < 2 ^ 32 ->
  enum_fill_result d = (s, hs) ->
  0 <= s ->
  List.length hs = Z.to_nat n ->
  all_nonnull hs = true ->
  let out := stdout (snd (run d)) in
  exit_code d = Some 0
  /\ out = ([banner (queryLoaderVersion (enumerate_instance_version d)); found_line n]
            ++ map (fun h => device_line (device_properties d h)) hs ++ [ok_line])%list
  /\ List.length (filter is_device_line out) = Z.to_nat n
  /\ filter is_device_line out
     = map (fun h => let p := device_properties d h in
              "  - " ++ cstr (deviceName p) ++ " | api " ++ version_str (apiVersion p)
              ++ " | driver 0x" ++ utoa 16 (to_u32 (driverVersion p))
              ++ " | deviceID 0x" ++ pad0 4 (utoa 16 (to_u32 (deviceID p))) ++ newline) hs.
Proof.
  intros d n s hs Hc He Hn Hf Hs Hl Ha out.
  assert (Hn32 : to_u32 n = n) by (apply to_u32_small; lia).
  assert (Hn0 : to_u32 n <> 0) by lia.
  assert (Ha' : all_nonnull (firstn (Z.to_nat (to_u32 n)) hs) = true)
    by (rewrite Hn32, <- Hl, firstn_all; exact Ha).
  destruct (main_listing d n s hs Hc He Hn0 Hf Hs Ha') as (H0 & Hout & _).
  rewrite Hn32, <- Hl, firstn_all, Hl, Z2Nat.id in Hout by lia.
  unfold out, exit_code; rewrite Hout.
  rewrite <- (map_map (device_properties d) device_line), listing_device_lines, length_map, length_map.
  repeat split; [exact H0 | exact Hl | rewrite map_map; reflexivity].
Qed.

Lemma device_listing_witness :
  create_instance_result (sample_driver 0 (0, 2) (0, [7; 9])) = VK_SUCCESS
  /\ enum_count_result (sample_driver 0 (0, 2) (0, [7; 9])) = (VK_SUCCESS, 2)
  /\ 0 < 2 < 2 ^ 32
  /\ enum_fill_result (sample_driver 0 (0, 2) (0, [7; 9])) = (0, [7; 9])
  /\ 0 <= 0
  /\ List.length [7; 9] = Z.to_nat 2
  /\ all_nonnull [7; 9] = true
  /\ List.length (filter is_device_line (stdout (snd (run (sample_driver 0 (0, 2) (0, [7; 9]))))))
     = 2%nat.
Proof.
  do 7 (split; [first [reflexivity | lia] |]).
  apply (device_listing (sample_driver 0 (0, 2) (0, [7; 9])) 2 0 [7; 9]);
    first [reflexivity | lia].
Defined.

(** C7 fails as stated: a device id above 0xFFFF is printed with more than
    four hex digits. *)
Lemma device_id_five_digits :
  let out := stdout (snd (run (sample_driver 0 (0, 1) (0, [4661])))) in
  nth_error out 2
  = Some ("  - Discrete GPU | api 1.3.565 | driver 0x2469 | deviceID 0x12350" ++ newline)
  /\ existsb (fun l => is_device_line l && negb (ends_with_4hex_id l)) out = true.
Proof. split; vm_compute; reflexivity. Qed.

(** C8: two runs whose drivers give the same loader version, the same
    statuses, the same first enumeration answer, valid handles whenever the
    second call succeeds, and the same device properties in possibly
    another order, end the same way, print the same standard error and the
    same standard output up to the order of the lines. *)
Theorem listing_deterministic : forall d1 d2,
  queryLoaderVersion (enumerate_instance_version d1)
    = queryLoaderVersion (enumerate_instance_version d2) ->
  create_instance_result d1 = create_instance_result d2 ->
  enum_count_result d1 = enum_count_result d2 ->
  fst (enum_fill_result d1) = fst (enum_fill_result d2) ->
  (0 <= fst (enum_fill_result d1) ->
     all_nonnull (firstn (Z.to_nat (to_u32 (snd (enum_count_result d1))))
                         (snd (enum_fill_result d1))) = true) ->
  (0 <= fst (enum_fill_result d2) ->
     all_nonnull (firstn (Z.to_nat (to_u32 (snd (enum_count_result d2))))
                         (snd (enum_fill_result d2))) = true) ->
  Permutation
    (map (device_properties d1)
       (firstn (Z.to_nat (to_u32 (snd (enum_count_result d1)))) (snd (enum_fill_result d1))))
    (map (device_properties d2)
       (firstn (Z.to_nat (to_u32 (snd (enum_count_result d2)))) (snd (enum_fill_result d2)))) ->
  exit_code d1 = exit_code d2
  /\ stderr (snd (run d1)) = stderr (snd (run d2))
  /\ Permutation (stdout (snd (run d1))) (stdout (snd (run d2))).
Proof.
  intros d1 d2 Hv Hc He Hs Ha1 Ha2 Hp.
  destruct (Z.eqb_spec (create_instance_result d1) VK_SUCCESS) as [Hc1|Hc1].
  2: { assert (Hc2 : create_instance_result d2 <> VK_SUCCESS) by congruence.
       unfold exit_code; rewrite (main_create_failed d1 Hc1), (main_create_failed d2 Hc2).
       cbn [fst snd stderr stdout]; rewrite Hv, Hc; auto. }
  assert (Hc2 : create_instance_result d2 = VK_SUCCESS) by congruence.
  destruct (enum_count_result d1) as [r n] eqn:He1; symmetry in He; rename He into He2.
  cbn [snd] in Hp, Ha1; rewrite He2 in Hp, Ha2; cbn [snd] in Hp, Ha2.
  destruct (negb (r =? VK_SUCCESS) || (to_u32 n =? 0)) eqn:Hb.
  - unfold exit_code; rewrite (main_no_devices d1 r n Hc1 He1 Hb), (main_no_devices d2 r n Hc2 He2 Hb).
    cbn [fst snd stderr stdout]; rewrite Hv; auto.
  - destruct (r =? VK_SUCCESS) eqn:Hr, (to_u32 n =? 0) eqn:Hn; cbn in Hb; try discriminate.
    apply Z.eqb_eq in Hr; apply Z.eqb_neq in Hn; subst r.
    destruct (enum_fill_result d1) as [s1 hs1] eqn:Hf1.
    destruct (enum_fill_result d2) as [s2 hs2] eqn:Hf2.
    cbn [fst snd] in Hp, Hs, Ha1, Ha2; subst s2.
    destruct (Z.ltb_spec s1 0) as [Hs1|Hs1].
    + unfold exit_code; rewrite (main_fill_failed d1 n s1 hs1 Hc1 He1 Hn Hf1 Hs1),
        (main_fill_failed d2 n s1 hs2 Hc2 He2 Hn Hf2 Hs1).
      cbn [fst snd stderr stdout]; rewrite Hv; repeat split; reflexivity.
    + destruct (main_listing d1 n s1 hs1 Hc1 He1 Hn Hf1 Hs1 (Ha1 Hs1)) as (H01 & Hout1 & Herr1 & _).
      destruct (main_listing d2 n s1 hs2 Hc2 He2 Hn Hf2 Hs1 (Ha2 Hs1)) as (H02 & Hout2 & Herr2 & _).
      unfold exit_code; rewrite H01, H02, Herr1, Herr2, Hout1, Hout2, Hv.
      assert (Hlen : List.length (firstn (Z.to_nat (to_u32 n)) hs1)
                     = List.length (firstn (Z.to_nat (to_u32 n)) hs2)).
      { apply Permutation_length in Hp; rewrite !length_map in Hp; exact Hp. }
      rewrite Hlen.
      repeat split.
      apply Permutation_app_head, Permutation_app_tail.
      rewrite <- (map_map (device_properties d1) device_line),
              <- (map_map (device_properties d2) device_line).
      apply Permutation_map; exact Hp.
Qed.

Lemma listing_deterministic_witness :
  let d1 := sample_driver 0 (0, 2) (0, [7; 9]) in
  let d2 := sample_driver 0 (0, 2) (0, [9; 7]) in
  (queryLoaderVersion (enumerate_instance_version d1)
     = queryLoaderVersion (enumerate_instance_version d2)
   /\ create_instance_result d1 = create_instance_result d2
   /\ enum_count_result d1 = enum_count_result d2
   /\ fst (enum_fill_result d1) = fst (enum_fill_result d2))
  /\ Permutation (stdout (snd (run d1))) (stdout (snd (run d2))).
Proof.
  intros d1 d2; split; [repeat split |].
  apply (listing_deterministic d1 d2); try reflexivity; try (intros _; reflexivity).
  vm_compute; apply perm_swap.
Defined.

(** C9: for a 32-bit [v], [ApiVersionToStr] leaves ["M.m.p"] in its static
    buffer and returns a pointer to it; each [printf] reads the buffer right
    after the one call among its arguments, so the banner shows the loader
    version, and each device line shows the version of its own device. *)
Theorem version_text_per_call : forall v,
  0 <= v < 2 ^ 32 ->
  (forall s, ApiVersionToStr v s
             = (Some PStatic, mkSt (claimed_version_text v) (stdout s) (stderr s) (calls s) (phase s)))
  /\ (forall d, queryLoaderVersion (enumerate_instance_version d) = v ->
        hd_error (stdout (snd (run d)))
        = Some ("[vk] Loader supports: Vulkan " ++ claimed_version_text v ++ newline))
  /\ (forall p, apiVersion p = v ->
        device_line p
        = "  - " ++ cstr (deviceName p) ++ " | api " ++ claimed_version_text v
          ++ " | driver 0x" ++ utoa 16 (to_u32 (driverVersion p))
          ++ " | deviceID 0x" ++ pad0 4 (utoa 16 (to_u32 (deviceID p))) ++ newline)
  /\ (forall d n r2 hs,
        create_instance_result d = VK_SUCCESS -> enum_count_result d = (VK_SUCCESS, n) ->
        to_u32 n <> 0 -> enum_fill_result d = (r2, hs) ->
        0 <= r2 -> all_nonnull (firstn (Z.to_nat (to_u32 n)) hs) = true ->
        filter is_device_line (stdout (snd (run d)))
        = map (fun h => device_line (device_properties d h)) (firstn (Z.to_nat (to_u32 n)) hs))
  /\ (forall d l, In l (filter is_device_line (stdout (snd (run d)))) ->
        exists h, In h (snd (enum_fill_result d)) /\ l = device_line (device_properties d h)).
Proof.
  intros v Hv; repeat split.
  - intros s; rewrite ApiVersionToStr_spec, version_str_u32 by exact Hv; reflexivity.
  - intros d Hd; rewrite run_stdout_head, Hd; unfold banner; rewrite version_str_u32 by exact Hv.
    reflexivity.
  - intros p Hp; unfold device_line; rewrite Hp, version_str_u32 by exact Hv; reflexivity.
  - intros d n r2 hs Hc He Hn Hf Hr Ha.
    destruct (main_listing d n r2 hs Hc He Hn Hf Hr Ha) as (_ & Hout & _).
    rewrite Hout, <- (map_map (device_properties d) device_line), listing_device_lines.
    reflexivity.
  - intros d l; rewrite device_lines_of_run.
    destruct (_ && _ && _ && _); [| intros []].
    intros Hl; apply in_map_iff in Hl as (h & <- & Hh).
    exists h; split; [| reflexivity].
    apply in_firstn_in in Hh; apply in_firstn_in in Hh; exact Hh.
Qed.

Lemma version_text_witness :
  0 <= VK_MAKE_VERSION 1 3 250 < 2 ^ 32
  /\ hd_error (stdout (snd (run (sample_driver 0 (0, 2) (0, [7; 9])))))
     = Some ("[vk] Loader supports: Vulkan " ++ claimed_version_text (VK_MAKE_VERSION 1 3 250)
             ++ newline).
Proof.
  split; [apply to_u32_range |].
  apply (version_text_per_call (VK_MAKE_VERSION 1 3 250)); [apply to_u32_range |].
  reflexivity.
Defined.




(** ** Further properties of the program *)

Lemma land_mul_pow2_small : forall a b k,
  0 <= k -> 0 <= b < 2 ^ k -> Z.land (a * 2 ^ k) b = 0.
Proof.
  intros a b k Hk Hb; apply Z.bits_inj'; intros i Hi.
  rewrite Z.land_spec, Z.testbit_0_l, <- Z.shiftl_mul_pow2 by exact Hk.
  destruct (Z.ltb_spec i k) as [Hlt|Hge].
  - rewrite Z.shiftl_spec_low by lia; reflexivity.
  - rewrite <- (Z.mod_small b (2 ^ k)) by exact Hb.
    rewrite Z.mod_pow2_bits_high by lia; apply andb_false_r.
Qed.

Lemma lor_disjoint : forall x y, Z.land x y = 0 -> Z.lor x y = x + y.
Proof. intros x y H; pose proof (Z.add_lor_land x y) as E; lia. Qed.

Lemma make_version_value : forall M m p,
  0 <= M < 2 ^ 10 -> 0 <= m < 2 ^ 10 -> 0 <= p < 2 ^ 12 ->
  VK_MAKE_VERSION M m p = M * 2 ^ 22 + m * 2 ^ 12 + p.
Proof.
  intros M m p HM Hm Hp; unfold VK_MAKE_VERSION.
  rewrite !Z.shiftl_mul_pow2 by lia.
  rewrite (lor_disjoint (M * 2 ^ 22) (m * 2 ^ 12))
    by (apply land_mul_pow2_small; lia).
  replace (M * 2 ^ 22 + m * 2 ^ 12) with ((M * 2 ^ 10 + m) * 2 ^ 12) by ring.
  rewrite lor_disjoint by (apply land_mul_pow2_small; lia).
  apply to_u32_small; lia.
Qed.

Lemma version_macros_decode : forall M m p,
  0 <= M < 1024 -> 0 <= m < 1024 -> 0 <= p < 4096 ->
  VK_VERSION_MAJOR (VK_MAKE_VERSION M m p) = M
  /\ VK_VERSION_MINOR (VK_MAKE_VERSION M m p) = m
  /\ VK_VERSION_PATCH (VK_MAKE_VERSION M m p) = p.
Proof.
  intros M m p HM Hm Hp.
  rewrite make_version_value by (cbn; lia).
  unfold VK_VERSION_MAJOR, VK_VERSION_MINOR, VK_VERSION_PATCH.
  rewrite to_u32_small by (cbn; lia).
  change 1023 with (Z.ones 10); change 4095 with (Z.ones 12).
  rewrite !Z.land_ones, !Z.shiftr_div_pow2 by lia.
  cbn [Z.pow Z.pow_pos Pos.iter Z.mul] in *.
  repeat split.
  - Z.div_mod_to_equations; lia.
  - Z.div_mod_to_equations; lia.
  - Z.div_mod_to_equations; lia.
Qed.

(** X1: the version macros decode what [VK_MAKE_VERSION] packs, for a major
    and a minor below 1024 and a patch below 4096. *)
Theorem version_macros_roundtrip : forall M m p,
  0 <= M < 1024 -> 0 <= m < 1024 -> 0 <= p < 4096 ->
  VK_VERSION_MAJOR (VK_MAKE_VERSION M m p) = M
  /\ VK_VERSION_MINOR (VK_MAKE_VERSION M m p) = m
  /\ VK_VERSION_PATCH (VK_MAKE_VERSION M m p) = p.
Proof. exact version_macros_decode. Qed.

Lemma version_macros_roundtrip_witness :
  (0 <= 1 < 1024 /\ 0 <= 3 < 1024 /\ 0 <= 250 < 4096)
  /\ VK_VERSION_MINOR (VK_MAKE_VERSION 1 3 250) = 3.
Proof.
  split; [lia |].
  apply (version_macros_roundtrip 1 3 250); lia.
Defined.

(** X2: for every value, [ApiVersionToStr] returns a pointer to its static
    buffer holding the whole ["%u.%u.%u"] text: at most 14 characters, so
    [snprintf] into the 64-byte buffer never truncates. *)
Theorem ApiVersionToStr_no_truncation : forall v s,
  let b := static_buf (snd (ApiVersionToStr v s)) in
  fst (ApiVersionToStr v s) = Some PStatic
  /\ b = format (static_buf s) "%u.%u.%u"
           [AInt (VK_VERSION_MAJOR v); AInt (VK_VERSION_MINOR v); AInt (VK_VERSION_PATCH v)]
  /\ (String.length b <= 14)%nat.
Proof.
  intros v s b; unfold b; rewrite ApiVersionToStr_spec; cbn [fst snd static_buf].
  repeat split; [| apply version_str_length].
  rewrite format_version, append_empty_r.
  pose proof (major_range v); pose proof (minor_range v); pose proof (patch_range v).
  rewrite !to_u32_small by lia; reflexivity.
Qed.

(** X3: [ApiVersionToStr] renders a version packed by [VK_MAKE_VERSION] as its
    three components in decimal. *)
Theorem ApiVersionToStr_make_version : forall M m p s,
  0 <= M < 1024 -> 0 <= m < 1024 -> 0 <= p < 4096 ->
  static_buf (snd (ApiVersionToStr (VK_MAKE_VERSION M m p) s))
  = utoa 10 M ++ "." ++ utoa 10 m ++ "." ++ utoa 10 p.
Proof.
  intros M m p s HM Hm Hp; rewrite ApiVersionToStr_spec; cbn [snd static_buf].
  destruct (version_macros_decode M m p HM Hm Hp) as (E1 & E2 & E3).
  unfold version_str; rewrite E1, E2, E3; reflexivity.
Qed.

Lemma ApiVersionToStr_make_version_witness :
  (0 <= 1 < 1024 /\ 0 <= 3 < 1024 /\ 0 <= 250 < 4096)
  /\ static_buf (snd (ApiVersionToStr (VK_MAKE_VERSION 1 3 250) init_st)) = "1.3.250".
Proof.
  split; [lia |].
  rewrite (ApiVersionToStr_make_version 1 3 250 init_st) by lia; reflexivity.
Defined.

Lemma count_describe_loop : forall devs l,
  count_ev is_describe
    (flat_map (fun j => [EvReadDevice j; EvGetProperties (nth j devs VK_NULL_HANDLE)]) l)
  = List.length l.
Proof.
  intros devs l; induction l as [|j l IH]; [reflexivity|].
  cbn [flat_map app]; unfold count_ev in *; cbn [filter is_describe List.length].
  rewrite IH; reflexivity.
Qed.

(** X4: when devices are listed, the count printed in the ["Found"] line, the
    number of device lines and the number of [vkGetPhysicalDeviceProperties]
    calls are all the smaller of the first call's count and the number of
    handles the second call returns. *)
Theorem found_count_matches_lines : forall d n s hs,
  create_instance_result d = VK_SUCCESS ->
  enum_count_result d = (VK_SUCCESS, n) ->
  to_u32 n <> 0 ->
  enum_fill_result d = (s, hs) ->
  0 <= s ->
  all_nonnull (firstn (Z.to_nat (to_u32 n)) hs) = true ->
  let k := Nat.min (Z.to_nat (to_u32 n)) (List.length hs) in
  let st := snd (run d) in
  nth_error (stdout st) 1 = Some (found_line (Z.of_nat k))
  /\ List.length (filter is_device_line (stdout st)) = k
  /\ count_ev is_describe (calls st) = k.
Proof.
  intros d n s hs Hc He Hn Hf Hs Ha k st.
  destruct (main_listing d n s hs Hc He Hn Hf Hs Ha) as (_ & Hout & _ & Hcalls & _).
  assert (Hk : List.length (firstn (Z.to_nat (to_u32 n)) hs) = k)
    by (unfold k; apply length_firstn).
  unfold st; rewrite Hout, Hcalls, Hk.
  repeat split.
  - rewrite <- (map_map (device_properties d) device_line), listing_device_lines, !length_map.
    exact Hk.
  - rewrite !count_ev_app, count_prelude by reflexivity.
    unfold loop_calls; rewrite count_describe_loop, length_seq; cbn; lia.
Qed.

Lemma found_count_matches_lines_witness :
  create_instance_result (sample_driver 0 (0, 2) (5, [7])) = VK_SUCCESS
  /\ enum_count_result (sample_driver 0 (0, 2) (5, [7])) = (VK_SUCCESS, 2)
  /\ to_u32 2 <> 0
  /\ enum_fill_result (sample_driver 0 (0, 2) (5, [7])) = (5, [7])
  /\ 0 <= 5
  /\ all_nonnull (firstn (Z.to_nat (to_u32 2)) [7]) = true
  /\ List.length (filter is_device_line (stdout (snd (run (sample_driver 0 (0, 2) (5, [7]))))))
     = 1%nat.
Proof.
  assert (Hnz : to_u32 2 <> 0) by (vm_compute; congruence).
  assert (H5 : 0 <= 5) by lia.
  do 6 (split; [first [reflexivity | assumption] |]).
  exact (proj1 (proj2 (found_count_matches_lines (sample_driver 0 (0, 2) (5, [7])) 2 5 [7]
                         eq_refl eq_refl Hnz eq_refl H5 eq_refl))).
Defined.

(** X5: every read of the device vector is below the size it was allocated
    with; every handle passed to [vkGetPhysicalDeviceProperties] is one the
    driver returned from a successful second enumeration call, and after a
    failed one it is the [VK_NULL_HANDLE] left in the vector. *)
Theorem buffer_reads_in_bounds : forall d e,
  In e (calls (snd (run d))) ->
  access_ok (calls (snd (run d))) (enum_fill_result d) e.
Proof.
  intros d e; split_paths d.
  - rewrite (main_no_devices d r n Hc He Hb); cbn [snd calls]; unfold prelude_calls.
    intros HIn; destruct (enumerate_instance_version d); cbn in HIn;
    intuition (subst; exact I).
  - rewrite (main_fill_failed d n r2 hs Hc He Hn Hf Hr2); cbn [snd calls].
    intros HIn; apply in_app_iff in HIn as [HIn|HIn].
    { unfold prelude_calls in HIn; destruct (enumerate_instance_version d); cbn in HIn;
      intuition (subst; exact I). }
    destruct HIn as [<-|[<-|[<-|[<-|[<-|[<-|[]]]]]]]; cbn [access_ok]; try exact I.
    + exists (to_u32 n); split.
      * apply in_or_app; right; cbn; tauto.
      * pose proof (to_u32_range n); lia.
    + cbn [fst]; apply Z.ltb_lt in Hr2; rewrite Hr2; reflexivity.
  - destruct (main_listing_gen d n r2 hs Hc He Hn Hf Hr2) as (_ & _ & _ & Hcalls & _).
    rewrite Hcalls; clear Hcalls.
    set (N := Z.to_nat (to_u32 n)); set (w := firstn N hs).
    set (buf := (w ++ skipn (List.length w) (repeat VK_NULL_HANDLE N))%list).
    set (m := leading_nonnull w).
    assert (Hw : (List.length w <= N)%nat) by (unfold w; rewrite length_firstn; lia).
    assert (Hm : (m <= List.length w)%nat) by apply leading_nonnull_le.
    assert (Hget : forall tr h, In h w -> access_ok tr (r2, hs) (EvGetProperties h)).
    { intros tr h Hh; cbn [access_ok fst snd]; apply Z.ltb_ge in Hr2; rewrite Hr2.
      apply (in_firstn_in _ N); exact Hh. }
    assert (Halloc : forall tl j, (j < N)%nat ->
              access_ok (prelude_calls d ++ [EvCreateInstance VK_SUCCESS; EvEnumerateCount VK_SUCCESS;
                 EvAllocDevices (to_u32 n); EvEnumerateFill r2] ++ tl)%list (r2, hs) (EvReadDevice j)).
    { intros tl j Hj; exists (to_u32 n); split; [| exact Hj].
      apply in_or_app; right; cbn; tauto. }
    intros HIn.
    apply in_app_iff in HIn as [HIn|HIn].
    { unfold prelude_calls in HIn; destruct (enumerate_instance_version d); cbn in HIn;
      intuition (subst; exact I). }
    cbn [app] in HIn; destruct HIn as [<-|[<-|[<-|[<-|HIn]]]]; try exact I.
    apply in_app_iff in HIn as [HIn|HIn].
    + unfold loop_calls in HIn; apply in_flat_map in HIn as (j & Hj & HIn).
      apply in_seq in Hj.
      destruct HIn as [<-|[<-|[]]].
      * apply Halloc; lia.
      * apply Hget; unfold buf; rewrite app_nth1 by lia; apply nth_In; lia.
    + destruct (Nat.ltb_spec m (List.length w)) as [Hab|Hab].
      * destruct HIn as [<-|[<-|[]]].
        -- apply Halloc; lia.
        -- apply Hget; rewrite <- (leading_nonnull_null w Hab).
           apply nth_In; exact Hab.
      * destruct HIn as [<-|[]]; exact I.
  - rewrite (main_create_failed d Hc); cbn [snd calls]; unfold prelude_calls.
    intros HIn; destruct (enumerate_instance_version d); cbn in HIn;
    intuition (subst; exact I).
Qed.

Lemma buffer_reads_in_bounds_witness :
  In (EvGetProperties 9) (calls (snd (run (sample_driver 0 (0, 2) (0, [7; 9])))))
  /\ In 9 (snd (enum_fill_result (sample_driver 0 (0, 2) (0, [7; 9])))).
Proof.
  assert (H : In (EvGetProperties 9) (calls (snd (run (sample_driver 0 (0, 2) (0, [7; 9]))))))
    by (vm_compute; repeat (first [left; reflexivity | right])).
  split; [exact H |].
  exact (buffer_reads_in_bounds (sample_driver 0 (0, 2) (0, [7; 9])) (EvGetProperties 9) H).
Defined.

(** X6: either the program exits with 0, having written nothing on standard
    error and ["[vk] Sanity OK."] as its last line; or it exits with 1,
    having written exactly one line on standard error and only the loader
    banner on standard output; or it is aborted in a call of
    [vkGetPhysicalDeviceProperties] on [VK_NULL_HANDLE], its last call,
    without destroying the instance. *)
Theorem diagnostics_by_exit : forall d,
  let st := snd (run d) in
  let lv := queryLoaderVersion (enumerate_instance_version d) in
  (exit_code d = Some 0 /\ stderr st = [] /\ last (stdout st) EmptyString = ok_line)
  \/ (exit_code d = Some 1 /\ List.length (stderr st) = 1%nat /\ stdout st = [banner lv])
  \/ (exit_code d = None /\ last (calls st) EvGetProcAddr = EvGetProperties VK_NULL_HANDLE
      /\ count_ev is_destroy (calls st) = 0%nat).
Proof.
  intros d st lv; unfold st, lv, exit_code; clear st lv.
  split_paths d.
  - rewrite (main_no_devices d r n Hc He Hb); right; left; repeat split.
  - rewrite (main_fill_failed d n r2 hs Hc He Hn Hf Hr2); right; right; cbn [fst snd calls].
    repeat split; [rewrite last_app_nonnil by discriminate; reflexivity | count_calls; reflexivity].
  - destruct (main_listing_gen d n r2 hs Hc He Hn Hf Hr2) as (H0 & Hout & Herr & Hcalls & _).
    rewrite H0, Hout, Herr, Hcalls; clear H0 Hout Herr Hcalls.
    destruct (_ <? _)%nat.
    + right; right; repeat split.
      * rewrite !app_assoc, last_app_nonnil by discriminate; reflexivity.
      * count_calls; reflexivity.
    + left; repeat split.
      rewrite !app_assoc; apply last_last.
  - rewrite (main_create_failed d Hc); right; left; repeat split.
Qed.

(** X8: when [vkCreateInstance] succeeds and the first enumeration call
    fails or reports no device, standard error holds the one line
    ["[vk] No physical devices found (res=<r>, count=<n>)"] with the status
    in decimal and the count as an unsigned 32-bit number, standard output
    only the banner, and the exit status is 1. *)
Theorem no_devices_diagnostic : forall d r n,
  create_instance_result d = VK_SUCCESS ->
  enum_count_result d = (r, n) ->
  r <> VK_SUCCESS \/ to_u32 n = 0 ->
  - 2 ^ 31 <= r < 2 ^ 31 ->
  exit_code d = Some 1
  /\ stdout (snd (run d)) = [banner (queryLoaderVersion (enumerate_instance_version d))]
  /\ stderr (snd (run d))
     = ["[vk] No physical devices found (res=" ++ itoa r ++ ", count="
        ++ utoa 10 (to_u32 n) ++ ")" ++ newline].
Proof.
  intros d r n Hc He Hor Hr.
  assert (Hb : negb (r =? VK_SUCCESS) || (to_u32 n =? 0) = true).
  { destruct Hor as [H|H]; [apply Z.eqb_neq in H; rewrite H; reflexivity
                           | rewrite H, orb_true_r; reflexivity]. }
  unfold exit_code; rewrite (main_no_devices d r n Hc He Hb); cbn [fst snd stdout stderr].
  unfold no_devices_line; rewrite to_s32_small by exact Hr.
  rewrite (to_u32_small (to_u32 n)) by apply to_u32_range.
  repeat split.
Qed.

Lemma no_devices_diagnostic_witness :
  create_instance_result (sample_driver 0 (-3, 2) (0, [7; 9])) = VK_SUCCESS
  /\ enum_count_result (sample_driver 0 (-3, 2) (0, [7; 9])) = (-3, 2)
  /\ stderr (snd (run (sample_driver 0 (-3, 2) (0, [7; 9]))))
     = ["[vk] No physical devices found (res=-3, count=2)" ++ newline].
Proof.
  split; [reflexivity | split; [reflexivity |]].
  apply (no_devices_diagnostic (sample_driver 0 (-3, 2) (0, [7; 9])) (-3) 2);
    [reflexivity | reflexivity | left; discriminate | lia].
Defined.

Lemma string_app_assoc : forall a b c : string, a ++ (b ++ c) = (a ++ b) ++ c.
Proof. intros a b c; induction a as [|x a IH]; cbn; [reflexivity | rewrite IH; reflexivity]. Qed.

Lemma substring_app_r : forall (a b : string) i n,
  substring (String.length a + i) n (a ++ b) = substring i n b.
Proof. intros a b i n; induction a as [|x a IH]; [reflexivity | exact IH]. Qed.

Lemma list_ascii_of_string_app : forall a b : string,
  list_ascii_of_string (a ++ b) = (list_ascii_of_string a ++ list_ascii_of_string b)%list.
Proof. intros a b; induction a as [|x a IH]; cbn; [reflexivity | rewrite IH; reflexivity]. Qed.

Lemma digit_char_hex : forall d, 0 <= d < 16 -> is_hex_digit (digit_char d) = true.
Proof.
  intros d Hd.
  assert (H : forall k, (k < 16)%nat -> is_hex_digit (digit_char (Z.of_nat k)) = true).
  { intros k Hk; do 16 (destruct k as [|k]; [reflexivity|]); lia. }
  rewrite <- (Z2Nat.id d) by lia; apply H; lia.
Qed.

Lemma utoa_aux_hex : forall fuel n acc,
  0 <= n -> hex_str acc = true -> hex_str (utoa_aux fuel 16 n acc) = true.
Proof.
  induction fuel as [|f IH]; intros n acc Hn Hacc; cbn [utoa_aux]; [exact Hacc|].
  assert (Hc : hex_str (String (digit_char (n mod 16)) acc) = true).
  { unfold hex_str in *; cbn [list_ascii_of_string forallb].
    rewrite digit_char_hex, Hacc by (apply Z.mod_pos_bound; lia); reflexivity. }
  destruct (n <? 16); [exact Hc|].
  apply IH; [apply Z.div_pos; lia | exact Hc].
Qed.

Lemma zeros_hex_length : forall k,
  hex_str (String.concat "" (repeat "0" k)) = true
  /\ String.length (String.concat "" (repeat "0" k)) = k.
Proof.
  induction k as [|[|k] IH]; [split; reflexivity | split; reflexivity |].
  destruct IH as [IH1 IH2]; split.
  - change (String.concat "" (repeat "0" (S (S k))))
      with ("0" ++ String.concat "" (repeat "0" (S k))).
    unfold hex_str in *; rewrite list_ascii_of_string_app; cbn [app forallb]; exact IH1.
  - change (String.concat "" (repeat "0" (S (S k))))
      with ("0" ++ String.concat "" (repeat "0" (S k))).
    rewrite append_length, IH2; reflexivity.
Qed.

(** The [%04x] field of a value below [0x10000]: four lower-case hex digits. *)
Lemma pad0_hex4 : forall x, 0 <= x < 2 ^ 16 ->
  String.length (pad0 4 (utoa 16 x)) = 4%nat /\ hex_str (pad0 4 (utoa 16 x)) = true.
Proof.
  intros x Hx.
  pose proof (utoa_aux_length 32 16 x EmptyString 4 ltac:(lia) ltac:(lia) ltac:(lia)) as Hl.
  cbn [Nat.max String.length] in Hl; fold (utoa 16 x) in Hl.
  destruct (zeros_hex_length (4 - String.length (utoa 16 x))) as [Hz1 Hz2].
  unfold pad0; split.
  - rewrite append_length, Hz2; lia.
  - unfold hex_str in *; rewrite list_ascii_of_string_app, forallb_app, Hz1; cbn [andb].
    apply (utoa_aux_hex 32 x EmptyString); [lia | reflexivity].
Qed.

Lemma ends_with_4hex_suffix : forall a h,
  String.length h = 4%nat -> hex_str h = true ->
  ends_with_4hex_id (a ++ " | deviceID 0x" ++ h ++ newline) = true.
Proof.
  intros a h Hl Hh.
  destruct h as [|c1 [|c2 [|c3 [|c4 [|c5 h]]]]]; cbn in Hl; try discriminate.
  unfold ends_with_4hex_id.
  rewrite append_length.
  replace (String.length (" | deviceID 0x" ++ String c1 (String c2 (String c3 (String c4 ""))) ++ newline))
    with 19%nat by reflexivity.
  replace (String.length a + 19 - 19)%nat with (String.length a + 0)%nat by lia.
  replace (String.length a + 19 - 5)%nat with (String.length a + 14)%nat by lia.
  replace (String.length a + 19 - 1)%nat with (String.length a + 18)%nat by lia.
  rewrite !substring_app_r.
  unfold hex_str in Hh; cbn [list_ascii_of_string] in Hh.
  unfold newline; cbn [substring append list_ascii_of_string].
  rewrite !String.eqb_refl, Hh.
  destruct (Nat.leb_spec 19 (String.length a + 19)); [reflexivity | lia].
Qed.

Lemma device_line_4hex : forall p, to_u32 (deviceID p) < 2 ^ 16 ->
  ends_with_4hex_id (device_line p) = true.
Proof.
  intros p Hp.
  destruct (pad0_hex4 (to_u32 (deviceID p))) as [Hl Hh];
    [pose proof (to_u32_range (deviceID p)); lia |].
  replace (device_line p) with
    (("  - " ++ cstr (deviceName p) ++ " | api " ++ version_str (apiVersion p)
      ++ " | driver 0x" ++ utoa 16 (to_u32 (driverVersion p)))
     ++ " | deviceID 0x" ++ pad0 4 (utoa 16 (to_u32 (deviceID p))) ++ newline)
    by (unfold device_line; rewrite !string_app_assoc; reflexivity).
  apply ends_with_4hex_suffix; assumption.
Qed.

(** X7: when every device the driver returns has a [deviceID] below
    [0x10000], each device line the program prints ends with
    [" | deviceID 0x"], exactly four hex digits and the newline. *)
Theorem device_id_field_4_digits : forall d,
  (forall h, In h (snd (enum_fill_result d)) -> to_u32 (deviceID (device_properties d h)) < 2 ^ 16) ->
  forallb ends_with_4hex_id (filter is_device_line (stdout (snd (run d)))) = true.
Proof.
  intros d Hid; rewrite device_lines_of_run.
  destruct (_ && _ && _ && _); [| reflexivity].
  apply forallb_forall; intros l Hl.
  apply in_map_iff in Hl as (h & <- & Hh).
  apply device_line_4hex, Hid, (in_firstn_in _ _ _ (in_firstn_in _ _ _ Hh)).
Qed.

Lemma device_id_field_4_digits_witness :
  (forall h, In h (snd (enum_fill_result (sample_driver 0 (0, 2) (0, [7; 9]))))
     -> to_u32 (deviceID (device_properties (sample_driver 0 (0, 2) (0, [7; 9])) h)) < 2 ^ 16)
  /\ forallb ends_with_4hex_id
       (filter is_device_line (stdout (snd (run (sample_driver 0 (0, 2) (0, [7; 9]))))))
     = true.
Proof.
  assert (H : forall h, In h (snd (enum_fill_result (sample_driver 0 (0, 2) (0, [7; 9]))))
     -> to_u32 (deviceID (device_properties (sample_driver 0 (0, 2) (0, [7; 9])) h)) < 2 ^ 16).
  { intros h Hh; destruct Hh as [<-|[<-|[]]]; vm_compute; reflexivity. }
  split; [exact H | exact (device_id_field_4_digits _ H)].
Defined.

Lemma bracket_device_count : forall d mid tl,
  count_ev is_device_access tl = 0%nat ->
  count_ev is_device_access (prelude_calls d ++ EvCreateInstance VK_SUCCESS :: mid ++ tl)%list
  = count_ev is_device_access mid.
Proof.
  intros d mid tl Htl; rewrite count_ev_app, count_prelude by reflexivity.
  unfold count_ev in *; cbn [filter is_device_access].
  rewrite filter_app, length_app, Htl; cbn [List.length]; lia.
Qed.

Lemma bracket_device_count_live : forall d mid,
  count_ev is_device_access (prelude_calls d ++ EvCreateInstance VK_SUCCESS :: mid)%list
  = count_ev is_device_access mid.
Proof.
  intros d mid; rewrite <- (app_nil_r mid) at 1; apply bracket_device_count; reflexivity.
Qed.

(** After a successful [vkCreateInstance] the later calls [mid] contain no
    creation nor destruction; the run either ends with the destruction, or
    is aborted in [vkGetPhysicalDeviceProperties] on [VK_NULL_HANDLE] with
    the instance still live. *)
Lemma instance_bracket : forall d,
  create_instance_result d = VK_SUCCESS ->
  exists mid,
    count_ev is_create mid = 0%nat
    /\ count_ev is_destroy mid = 0%nat
    /\ count_ev is_device_access mid = count_ev is_device_access (calls (snd (run d)))
    /\ ((exit_code d <> None
         /\ calls (snd (run d))
            = (prelude_calls d ++ EvCreateInstance VK_SUCCESS :: mid ++ [EvDestroyInstance])%list)
        \/ (exit_code d = None /\ phase (snd (run d)) = ContextLive
            /\ calls (snd (run d)) = (prelude_calls d ++ EvCreateInstance VK_SUCCESS :: mid)%list
            /\ last mid EvGetProcAddr = EvGetProperties VK_NULL_HANDLE)).
Proof.
  intros d Hc; unfold exit_code.
  destruct (enum_count_result d) as [r n] eqn:He.
  destruct (negb (r =? VK_SUCCESS) || (to_u32 n =? 0)) eqn:Hb.
  { assert (H : calls (snd (run d))
                 = (prelude_calls d ++ EvCreateInstance VK_SUCCESS
                    :: [EvEnumerateCount r] ++ [EvDestroyInstance])%list)
      by (rewrite (main_no_devices d r n Hc He Hb); reflexivity).
    exists [EvEnumerateCount r]; rewrite H, bracket_device_count by reflexivity.
    do 3 (split; [reflexivity |]).
    left; rewrite (main_no_devices d r n Hc He Hb); split; [discriminate | reflexivity]. }
  destruct (r =? VK_SUCCESS) eqn:Hr, (to_u32 n =? 0) eqn:Hn; cbn in Hb; try discriminate.
  apply Z.eqb_eq in Hr; apply Z.eqb_neq in Hn; subst r.
  destruct (enum_fill_result d) as [r2 hs] eqn:Hf.
  destruct (Z.ltb_spec r2 0) as [Hr2|Hr2].
  { set (mid := [EvEnumerateCount VK_SUCCESS; EvAllocDevices (to_u32 n); EvEnumerateFill r2;
                 EvReadDevice 0; EvGetProperties VK_NULL_HANDLE]).
    assert (H : calls (snd (run d)) = (prelude_calls d ++ EvCreateInstance VK_SUCCESS :: mid)%list)
      by (rewrite (main_fill_failed d n r2 hs Hc He Hn Hf Hr2); reflexivity).
    exists mid; rewrite H, bracket_device_count_live.
    do 3 (split; [reflexivity |]).
    right; rewrite (main_fill_failed d n r2 hs Hc He Hn Hf Hr2); repeat split. }
  destruct (main_listing_gen d n r2 hs Hc He Hn Hf Hr2) as (H0 & _ & _ & Hcalls & Hph).
  set (N := Z.to_nat (to_u32 n)) in H0, Hcalls, Hph; set (w := firstn N hs) in H0, Hcalls, Hph.
  set (buf := (w ++ skipn (List.length w) (repeat VK_NULL_HANDLE N))%list) in Hcalls.
  set (m := leading_nonnull w) in H0, Hcalls, Hph.
  revert H0 Hcalls Hph; destruct (m <? List.length w)%nat; intros H0 Hcalls Hph.
  - set (mid := ([EvEnumerateCount VK_SUCCESS; EvAllocDevices (to_u32 n); EvEnumerateFill r2]
                 ++ loop_calls buf 0 m ++ [EvReadDevice m; EvGetProperties VK_NULL_HANDLE])%list).
    assert (H : calls (snd (run d)) = (prelude_calls d ++ EvCreateInstance VK_SUCCESS :: mid)%list)
      by (rewrite Hcalls; unfold mid; rewrite <- ?app_assoc; reflexivity).
    exists mid; rewrite H, bracket_device_count_live.
    split; [unfold mid; count_calls; reflexivity |].
    split; [unfold mid; count_calls; reflexivity |].
    split; [reflexivity |].
    right; rewrite H0, Hph; repeat split.
    unfold mid; rewrite !app_assoc, last_app_nonnil by discriminate; reflexivity.
  - set (mid := ([EvEnumerateCount VK_SUCCESS; EvAllocDevices (to_u32 n); EvEnumerateFill r2]
                 ++ loop_calls buf 0 m)%list).
    assert (H : calls (snd (run d))
                = (prelude_calls d ++ EvCreateInstance VK_SUCCESS :: mid ++ [EvDestroyInstance])%list)
      by (rewrite Hcalls; unfold mid; rewrite <- ?app_assoc; reflexivity).
    exists mid; rewrite H, bracket_device_count by reflexivity.
    split; [unfold mid; count_calls; reflexivity |].
    split; [unfold mid; count_calls; reflexivity |].
    split; [reflexivity |].
    left; rewrite H0; split; [discriminate | reflexivity].
Qed.

(** X9: after a successful [vkCreateInstance], every later driver call comes
    after the creation, with no other creation nor destruction among them;
    when [main] returns, the one [vkDestroyInstance] is the last call, so all
    the device queries run on the live instance; when the process is
    aborted (on [VK_NULL_HANDLE], after a failed second enumeration call),
    the instance is never destroyed. *)
Theorem instance_brackets_device_calls : forall d,
  create_instance_result d = VK_SUCCESS ->
  exists mid,
    count_ev is_create mid = 0%nat
    /\ count_ev is_destroy mid = 0%nat
    /\ count_ev is_device_access mid = count_ev is_device_access (calls (snd (run d)))
    /\ ((exit_code d <> None
         /\ calls (snd (run d))
            = (prelude_calls d ++ EvCreateInstance VK_SUCCESS :: mid ++ [EvDestroyInstance])%list)
        \/ (exit_code d = None /\ phase (snd (run d)) = ContextLive
            /\ calls (snd (run d)) = (prelude_calls d ++ EvCreateInstance VK_SUCCESS :: mid)%list
            /\ last mid EvGetProcAddr = EvGetProperties VK_NULL_HANDLE)).
Proof. exact instance_bracket. Qed.

Lemma instance_brackets_device_calls_witness :
  create_instance_result (sample_driver 0 (0, 2) (-3, [7; 9])) = VK_SUCCESS
  /\ exists mid,
    count_ev is_create mid = 0%nat
    /\ count_ev is_destroy mid = 0%nat
    /\ count_ev is_device_access mid
       = count_ev is_device_access (calls (snd (run (sample_driver 0 (0, 2) (-3, [7; 9])))))
    /\ ((exit_code (sample_driver 0 (0, 2) (-3, [7; 9])) <> None
         /\ calls (snd (run (sample_driver 0 (0, 2) (-3, [7; 9]))))
            = (prelude_calls (sample_driver 0 (0, 2) (-3, [7; 9]))
               ++ EvCreateInstance VK_SUCCESS :: mid ++ [EvDestroyInstance])%list)
        \/ (exit_code (sample_driver 0 (0, 2) (-3, [7; 9])) = None
            /\ phase (snd (run (sample_driver 0 (0, 2) (-3, [7; 9])))) = ContextLive
            /\ calls (snd (run (sample_driver 0 (0, 2) (-3, [7; 9]))))
               = (prelude_calls (sample_driver 0 (0, 2) (-3, [7; 9]))
                  ++ EvCreateInstance VK_SUCCESS :: mid)%list
            /\ last mid EvGetProcAddr = EvGetProperties VK_NULL_HANDLE)).
Proof.
  split; [reflexivity |].
  apply (instance_brackets_device_calls (sample_driver 0 (0, 2) (-3, [7; 9]))); reflexivity.
Defined.

(** X10: on every path the program first resolves
    [vkEnumerateInstanceVersion], calls it only when the lookup succeeded,
    then calls [vkCreateInstance]; its first output line is the banner with
    the loader version so obtained. *)
Theorem loader_query_first : forall d,
  (exists rest,
     calls (snd (run d))
     = (EvGetProcAddr
        :: match enumerate_instance_version d with
           | Some _ => [EvEnumerateInstanceVersion]
           | None => []
           end ++ EvCreateInstance (create_instance_result d) :: rest)%list)
  /\ hd_error (stdout (snd (run d)))
     = Some (banner (queryLoaderVersion (enumerate_instance_version d))).
Proof.
  intros d; split; [| exact (run_stdout_head d)].
  change (EvGetProcAddr :: match enumerate_instance_version d with
                           | Some _ => [EvEnumerateInstanceVersion]
                           | None => []
                           end)%list with (prelude_calls d).
  destruct (Z.eqb_spec (create_instance_result d) VK_SUCCESS) as [Hc|Hc].
  2: { rewrite (main_create_failed d Hc); exists []; reflexivity. }
  destruct (instance_bracket d Hc) as (mid & _ & _ & _ & [[_ Hcalls]|(_ & _ & Hcalls & _)]);
    rewrite Hcalls, Hc; eexists; reflexivity.
Qed.

Lemma digit_value_char : forall d, 0 <= d < 16 -> digit_value (digit_char d) = d.
Proof.
  intros d Hd.
  assert (H : forall k, (k < 16)%nat -> digit_value (digit_char (Z.of_nat k)) = Z.of_nat k).
  { intros k Hk; do 16 (destruct k as [|k]; [reflexivity|]); lia. }
  rewrite <- (Z2Nat.id d) by lia; apply H; lia.
Qed.

Lemma digits_value_from_acc : forall base s acc,
  digits_value_from base acc s
  = acc * base ^ Z.of_nat (String.length s) + digits_value base s.
Proof.
  intros base s; unfold digits_value; induction s as [|c s IH]; intros acc.
  - cbn [digits_value_from String.length]; lia.
  - cbn [digits_value_from String.length]; rewrite (IH (acc * base + digit_value c)),
      (IH (0 * base + digit_value c)).
    rewrite Nat2Z.inj_succ, Z.pow_succ_r by lia; ring.
Qed.

Lemma utoa_aux_value : forall fuel base n acc,
  2 <= base <= 16 -> 0 <= n < base ^ Z.of_nat fuel ->
  digits_value base (utoa_aux fuel base n acc)
  = n * base ^ Z.of_nat (String.length acc) + digits_value base acc.
Proof.
  induction fuel as [|f IH]; intros base n acc Hb Hn; cbn [utoa_aux].
  - cbn in Hn; assert (n = 0) by lia; subst n; lia.
  - assert (Hm : 0 <= n mod base < base) by (apply Z.mod_pos_bound; lia).
    assert (Hacc' : digits_value base (String (digit_char (n mod base)) acc)
                    = (n mod base) * base ^ Z.of_nat (String.length acc) + digits_value base acc).
    { unfold digits_value at 1; cbn [digits_value_from].
      rewrite digits_value_from_acc, digit_value_char by lia; ring. }
    destruct (Z.ltb_spec n base) as [Hlt|Hge].
    + rewrite Hacc', Z.mod_small by lia; reflexivity.
    + rewrite IH; [| lia |].
      * rewrite Hacc'; cbn [String.length]; rewrite Nat2Z.inj_succ, Z.pow_succ_r by lia.
        rewrite (Z.div_mod n base) at 3 by lia; ring.
      * split; [apply Z.div_pos; lia |].
        apply Z.div_lt_upper_bound; [lia |].
        rewrite Nat2Z.inj_succ, Z.pow_succ_r in Hn by lia; lia.
Qed.

(** X11: the digits that [%u] and [%x] print for an unsigned 32-bit value,
    read back in base 10 or 16, give the value again. *)
Theorem utoa_roundtrip : forall base n,
  2 <= base <= 16 -> 0 <= n < 2 ^ 32 ->
  digits_value base (utoa base n) = n.
Proof.
  intros base n Hb Hn; unfold utoa.
  rewrite utoa_aux_value by first [lia | split; [lia |];
    apply Z.lt_le_trans with (2 ^ 32); [lia |];
    apply Z.pow_le_mono_l; lia].
  cbn [String.length]; change (digits_value base "") with 0; lia.
Qed.

Lemma utoa_roundtrip_witness :
  (2 <= 16 <= 16 /\ 0 <= 3735928559 < 2 ^ 32)
  /\ digits_value 16 (utoa 16 3735928559) = 3735928559.
Proof.
  split; [lia |]; apply utoa_roundtrip; lia.
Defined.
